(** * IMEI extractor: the extraction-and-validation pipeline

    A shallow embedding of [imei_extractor_api.py]: the Luhn validator
    [luhn_checksum_is_valid], the candidate scanner [extract_imeis_from_text]
    with the regular expression [IMEI_REGEX], the three text helpers and the
    request handler [extract_imei].

    A Python [str] is a sequence of Unicode code points, so a string is a list
    of code points here and [len] is [length].  The character classes the
    program depends on ([str.isdigit], [int], [str.strip], and the classes
    [\d], [\w] and [\b] of the [re] module) are those of CPython 3.11, whose
    character database is Unicode 14.0.0; the tables below list them.

    Exceptions are values: a call that can raise returns a [result].  An
    [except Exception] clause catches the exceptions of the class [Exception]
    and lets the others through. *)

From Stdlib Require Import ZArith NArith List String Ascii Bool Lia Sorted.
From stdpp Require Import base option list gmap sets.

Local Open Scope nat_scope.

(** ** Strings *)

(** A character is its code point. *)
Definition char := N.
Abbreviation pystr := (list char).

(** A literal of the source, whose characters are all ASCII. *)
Definition str (s : string) : pystr :=
  map (fun a : ascii => N_of_ascii a) (list_ascii_of_string s).

(** ** The character database *)

Module Unicode.

Definition in_ranges (c : N) (t : list (N * N)) : bool :=
  existsb (fun r : N * N => (fst r <=? c)%N && (c <=? snd r)%N) t.

(** Code points of the digit zero of every decimal script: the nine code points
    after each one are its digits one to nine. *)
Definition decimal_zeros : list N :=
  [48; 1632; 1776; 1984; 2406; 2534; 2662; 2790; 2918; 3046; 3174; 3302; 3430; 3558; 3664;
   3792; 3872; 4160; 4240; 6112; 6160; 6470; 6608; 6784; 6800; 6992; 7088; 7232; 7248; 42528;
   43216; 43264; 43472; 43504; 43600; 44016; 65296; 66720; 68912; 69734; 69872; 69942; 70096;
   70384; 70736; 70864; 71248; 71360; 71472; 71904; 72016; 72784; 73040; 73120; 92768; 92864;
   93008; 120782; 120792; 120802; 120812; 120822; 123200; 123632; 125264; 130032]%N.

(** Characters with a digit value that is not a decimal value (superscripts,
    circled digits and the like), as inclusive ranges. *)
Definition digit_only_ranges : list (N * N) :=
  [(178, 179); (185, 185); (4969, 4977); (6618, 6618); (8304, 8304); (8308, 8313);
   (8320, 8329); (9312, 9320); (9332, 9340); (9352, 9360); (9450, 9450); (9461, 9469);
   (9471, 9471); (10102, 10110); (10112, 10120); (10122, 10130); (68160, 68163);
   (69216, 69224); (69714, 69722); (127232, 127242)]%N.

(** Characters with a numeric value but no digit value (fractions, roman
    numerals, CJK numerals and the like), as inclusive ranges. *)
Definition numeric_only_ranges : list (N * N) :=
  [(188, 190); (2548, 2553); (2930, 2935); (3056, 3058); (3192, 3198); (3416, 3422);
   (3440, 3448); (3882, 3891); (4978, 4988); (5870, 5872); (6128, 6137); (8528, 8578);
   (8581, 8585); (9321, 9331); (9341, 9351); (9361, 9371); (9451, 9460); (9470, 9470);
   (10111, 10111); (10121, 10121); (10131, 10131); (11517, 11517); (12295, 12295);
   (12321, 12329); (12344, 12346); (12690, 12693); (12832, 12841); (12872, 12879);
   (12881, 12895); (12928, 12937); (12977, 12991); (13317, 13317); (13443, 13443);
   (14378, 14378); (15181, 15181); (19968, 19968); (19971, 19971); (19975, 19975);
   (19977, 19977); (20061, 20061); (20108, 20108); (20116, 20116); (20118, 20118);
   (20159, 20160); (20191, 20191); (20200, 20200); (20237, 20237); (20336, 20336);
   (20740, 20740); (20806, 20806); (20841, 20841); (20843, 20843); (20845, 20845);
   (21313, 21313); (21315, 21317); (21324, 21324); (21441, 21444); (22235, 22235);
   (22769, 22769); (22777, 22777); (24186, 24186); (24318, 24319); (24332, 24334);
   (24336, 24336); (25342, 25342); (25420, 25420); (26578, 26578); (28422, 28422);
   (29590, 29590); (30334, 30334); (32902, 32902); (33836, 33836); (36014, 36014);
   (36019, 36019); (36144, 36144); (38433, 38433); (38470, 38470); (38476, 38476);
   (38520, 38520); (38646, 38646); (42726, 42735); (43056, 43061); (63851, 63851);
   (63859, 63859); (63864, 63864); (63922, 63922); (63953, 63953); (63955, 63955);
   (63997, 63997); (65799, 65843); (65856, 65912); (65930, 65931); (66273, 66299);
   (66336, 66339); (66369, 66369); (66378, 66378); (66513, 66517); (67672, 67679);
   (67705, 67711); (67751, 67759); (67835, 67839); (67862, 67867); (68028, 68029);
   (68032, 68047); (68050, 68095); (68164, 68168); (68221, 68222); (68253, 68255);
   (68331, 68335); (68440, 68447); (68472, 68479); (68521, 68527); (68858, 68863);
   (69225, 69246); (69405, 69414); (69457, 69460); (69573, 69579); (69723, 69733);
   (70113, 70132); (71482, 71483); (71914, 71922); (72794, 72812); (73664, 73684);
   (74752, 74862); (93019, 93025); (93824, 93846); (119520, 119539); (119648, 119672);
   (125127, 125135); (126065, 126123); (126125, 126127); (126129, 126132); (126209, 126253);
   (126255, 126269); (127243, 127244); (131073, 131073); (131172, 131172); (131298, 131298);
   (131361, 131361); (133418, 133418); (133507, 133507); (133516, 133516); (133532, 133532);
   (133866, 133866); (133885, 133885); (133913, 133913); (140176, 140176); (141720, 141720);
   (146203, 146203); (156269, 156269); (194704, 194704)]%N.

(** Alphabetic characters (general categories Lu, Ll, Lt, Lm, Lo), as inclusive
    ranges. *)
Definition alpha_ranges : list (N * N) :=
  [(65, 90); (97, 122); (170, 170); (181, 181); (186, 186); (192, 214); (216, 246); (248, 705);
   (710, 721); (736, 740); (748, 748); (750, 750); (880, 884); (886, 887); (890, 893);
   (895, 895); (902, 902); (904, 906); (908, 908); (910, 929); (931, 1013); (1015, 1153);
   (1162, 1327); (1329, 1366); (1369, 1369); (1376, 1416); (1488, 1514); (1519, 1522);
   (1568, 1610); (1646, 1647); (1649, 1747); (1749, 1749); (1765, 1766); (1774, 1775);
   (1786, 1788); (1791, 1791); (1808, 1808); (1810, 1839); (1869, 1957); (1969, 1969);
   (1994, 2026); (2036, 2037); (2042, 2042); (2048, 2069); (2074, 2074); (2084, 2084);
   (2088, 2088); (2112, 2136); (2144, 2154); (2160, 2183); (2185, 2190); (2208, 2249);
   (2308, 2361); (2365, 2365); (2384, 2384); (2392, 2401); (2417, 2432); (2437, 2444);
   (2447, 2448); (2451, 2472); (2474, 2480); (2482, 2482); (2486, 2489); (2493, 2493);
   (2510, 2510); (2524, 2525); (2527, 2529); (2544, 2545); (2556, 2556); (2565, 2570);
   (2575, 2576); (2579, 2600); (2602, 2608); (2610, 2611); (2613, 2614); (2616, 2617);
   (2649, 2652); (2654, 2654); (2674, 2676); (2693, 2701); (2703, 2705); (2707, 2728);
   (2730, 2736); (2738, 2739); (2741, 2745); (2749, 2749); (2768, 2768); (2784, 2785);
   (2809, 2809); (2821, 2828); (2831, 2832); (2835, 2856); (2858, 2864); (2866, 2867);
   (2869, 2873); (2877, 2877); (2908, 2909); (2911, 2913); (2929, 2929); (2947, 2947);
   (2949, 2954); (2958, 2960); (2962, 2965); (2969, 2970); (2972, 2972); (2974, 2975);
   (2979, 2980); (2984, 2986); (2990, 3001); (3024, 3024); (3077, 3084); (3086, 3088);
   (3090, 3112); (3114, 3129); (3133, 3133); (3160, 3162); (3165, 3165); (3168, 3169);
   (3200, 3200); (3205, 3212); (3214, 3216); (3218, 3240); (3242, 3251); (3253, 3257);
   (3261, 3261); (3293, 3294); (3296, 3297); (3313, 3314); (3332, 3340); (3342, 3344);
   (3346, 3386); (3389, 3389); (3406, 3406); (3412, 3414); (3423, 3425); (3450, 3455);
   (3461, 3478); (3482, 3505); (3507, 3515); (3517, 3517); (3520, 3526); (3585, 3632);
   (3634, 3635); (3648, 3654); (3713, 3714); (3716, 3716); (3718, 3722); (3724, 3747);
   (3749, 3749); (3751, 3760); (3762, 3763); (3773, 3773); (3776, 3780); (3782, 3782);
   (3804, 3807); (3840, 3840); (3904, 3911); (3913, 3948); (3976, 3980); (4096, 4138);
   (4159, 4159); (4176, 4181); (4186, 4189); (4193, 4193); (4197, 4198); (4206, 4208);
   (4213, 4225); (4238, 4238); (4256, 4293); (4295, 4295); (4301, 4301); (4304, 4346);
   (4348, 4680); (4682, 4685); (4688, 4694); (4696, 4696); (4698, 4701); (4704, 4744);
   (4746, 4749); (4752, 4784); (4786, 4789); (4792, 4798); (4800, 4800); (4802, 4805);
   (4808, 4822); (4824, 4880); (4882, 4885); (4888, 4954); (4992, 5007); (5024, 5109);
   (5112, 5117); (5121, 5740); (5743, 5759); (5761, 5786); (5792, 5866); (5873, 5880);
   (5888, 5905); (5919, 5937); (5952, 5969); (5984, 5996); (5998, 6000); (6016, 6067);
   (6103, 6103); (6108, 6108); (6176, 6264); (6272, 6276); (6279, 6312); (6314, 6314);
   (6320, 6389); (6400, 6430); (6480, 6509); (6512, 6516); (6528, 6571); (6576, 6601);
   (6656, 6678); (6688, 6740); (6823, 6823); (6917, 6963); (6981, 6988); (7043, 7072);
   (7086, 7087); (7098, 7141); (7168, 7203); (7245, 7247); (7258, 7293); (7296, 7304);
   (7312, 7354); (7357, 7359); (7401, 7404); (7406, 7411); (7413, 7414); (7418, 7418);
   (7424, 7615); (7680, 7957); (7960, 7965); (7968, 8005); (8008, 8013); (8016, 8023);
   (8025, 8025); (8027, 8027); (8029, 8029); (8031, 8061); (8064, 8116); (8118, 8124);
   (8126, 8126); (8130, 8132); (8134, 8140); (8144, 8147); (8150, 8155); (8160, 8172);
   (8178, 8180); (8182, 8188); (8305, 8305); (8319, 8319); (8336, 8348); (8450, 8450);
   (8455, 8455); (8458, 8467); (8469, 8469); (8473, 8477); (8484, 8484); (8486, 8486);
   (8488, 8488); (8490, 8493); (8495, 8505); (8508, 8511); (8517, 8521); (8526, 8526);
   (8579, 8580); (11264, 11492); (11499, 11502); (11506, 11507); (11520, 11557);
   (11559, 11559); (11565, 11565); (11568, 11623); (11631, 11631); (11648, 11670);
   (11680, 11686); (11688, 11694); (11696, 11702); (11704, 11710); (11712, 11718);
   (11720, 11726); (11728, 11734); (11736, 11742); (11823, 11823); (12293, 12294);
   (12337, 12341); (12347, 12348); (12353, 12438); (12445, 12447); (12449, 12538);
   (12540, 12543); (12549, 12591); (12593, 12686); (12704, 12735); (12784, 12799);
   (13312, 19903); (19968, 42124); (42192, 42237); (42240, 42508); (42512, 42527);
   (42538, 42539); (42560, 42606); (42623, 42653); (42656, 42725); (42775, 42783);
   (42786, 42888); (42891, 42954); (42960, 42961); (42963, 42963); (42965, 42969);
   (42994, 43009); (43011, 43013); (43015, 43018); (43020, 43042); (43072, 43123);
   (43138, 43187); (43250, 43255); (43259, 43259); (43261, 43262); (43274, 43301);
   (43312, 43334); (43360, 43388); (43396, 43442); (43471, 43471); (43488, 43492);
   (43494, 43503); (43514, 43518); (43520, 43560); (43584, 43586); (43588, 43595);
   (43616, 43638); (43642, 43642); (43646, 43695); (43697, 43697); (43701, 43702);
   (43705, 43709); (43712, 43712); (43714, 43714); (43739, 43741); (43744, 43754);
   (43762, 43764); (43777, 43782); (43785, 43790); (43793, 43798); (43808, 43814);
   (43816, 43822); (43824, 43866); (43868, 43881); (43888, 44002); (44032, 55203);
   (55216, 55238); (55243, 55291); (63744, 64109); (64112, 64217); (64256, 64262);
   (64275, 64279); (64285, 64285); (64287, 64296); (64298, 64310); (64312, 64316);
   (64318, 64318); (64320, 64321); (64323, 64324); (64326, 64433); (64467, 64829);
   (64848, 64911); (64914, 64967); (65008, 65019); (65136, 65140); (65142, 65276);
   (65313, 65338); (65345, 65370); (65382, 65470); (65474, 65479); (65482, 65487);
   (65490, 65495); (65498, 65500); (65536, 65547); (65549, 65574); (65576, 65594);
   (65596, 65597); (65599, 65613); (65616, 65629); (65664, 65786); (66176, 66204);
   (66208, 66256); (66304, 66335); (66349, 66368); (66370, 66377); (66384, 66421);
   (66432, 66461); (66464, 66499); (66504, 66511); (66560, 66717); (66736, 66771);
   (66776, 66811); (66816, 66855); (66864, 66915); (66928, 66938); (66940, 66954);
   (66956, 66962); (66964, 66965); (66967, 66977); (66979, 66993); (66995, 67001);
   (67003, 67004); (67072, 67382); (67392, 67413); (67424, 67431); (67456, 67461);
   (67463, 67504); (67506, 67514); (67584, 67589); (67592, 67592); (67594, 67637);
   (67639, 67640); (67644, 67644); (67647, 67669); (67680, 67702); (67712, 67742);
   (67808, 67826); (67828, 67829); (67840, 67861); (67872, 67897); (67968, 68023);
   (68030, 68031); (68096, 68096); (68112, 68115); (68117, 68119); (68121, 68149);
   (68192, 68220); (68224, 68252); (68288, 68295); (68297, 68324); (68352, 68405);
   (68416, 68437); (68448, 68466); (68480, 68497); (68608, 68680); (68736, 68786);
   (68800, 68850); (68864, 68899); (69248, 69289); (69296, 69297); (69376, 69404);
   (69415, 69415); (69424, 69445); (69488, 69505); (69552, 69572); (69600, 69622);
   (69635, 69687); (69745, 69746); (69749, 69749); (69763, 69807); (69840, 69864);
   (69891, 69926); (69956, 69956); (69959, 69959); (69968, 70002); (70006, 70006);
   (70019, 70066); (70081, 70084); (70106, 70106); (70108, 70108); (70144, 70161);
   (70163, 70187); (70272, 70278); (70280, 70280); (70282, 70285); (70287, 70301);
   (70303, 70312); (70320, 70366); (70405, 70412); (70415, 70416); (70419, 70440);
   (70442, 70448); (70450, 70451); (70453, 70457); (70461, 70461); (70480, 70480);
   (70493, 70497); (70656, 70708); (70727, 70730); (70751, 70753); (70784, 70831);
   (70852, 70853); (70855, 70855); (71040, 71086); (71128, 71131); (71168, 71215);
   (71236, 71236); (71296, 71338); (71352, 71352); (71424, 71450); (71488, 71494);
   (71680, 71723); (71840, 71903); (71935, 71942); (71945, 71945); (71948, 71955);
   (71957, 71958); (71960, 71983); (71999, 71999); (72001, 72001); (72096, 72103);
   (72106, 72144); (72161, 72161); (72163, 72163); (72192, 72192); (72203, 72242);
   (72250, 72250); (72272, 72272); (72284, 72329); (72349, 72349); (72368, 72440);
   (72704, 72712); (72714, 72750); (72768, 72768); (72818, 72847); (72960, 72966);
   (72968, 72969); (72971, 73008); (73030, 73030); (73056, 73061); (73063, 73064);
   (73066, 73097); (73112, 73112); (73440, 73458); (73648, 73648); (73728, 74649);
   (74880, 75075); (77712, 77808); (77824, 78894); (82944, 83526); (92160, 92728);
   (92736, 92766); (92784, 92862); (92880, 92909); (92928, 92975); (92992, 92995);
   (93027, 93047); (93053, 93071); (93760, 93823); (93952, 94026); (94032, 94032);
   (94099, 94111); (94176, 94177); (94179, 94179); (94208, 100343); (100352, 101589);
   (101632, 101640); (110576, 110579); (110581, 110587); (110589, 110590); (110592, 110882);
   (110928, 110930); (110948, 110951); (110960, 111355); (113664, 113770); (113776, 113788);
   (113792, 113800); (113808, 113817); (119808, 119892); (119894, 119964); (119966, 119967);
   (119970, 119970); (119973, 119974); (119977, 119980); (119982, 119993); (119995, 119995);
   (119997, 120003); (120005, 120069); (120071, 120074); (120077, 120084); (120086, 120092);
   (120094, 120121); (120123, 120126); (120128, 120132); (120134, 120134); (120138, 120144);
   (120146, 120485); (120488, 120512); (120514, 120538); (120540, 120570); (120572, 120596);
   (120598, 120628); (120630, 120654); (120656, 120686); (120688, 120712); (120714, 120744);
   (120746, 120770); (120772, 120779); (122624, 122654); (123136, 123180); (123191, 123197);
   (123214, 123214); (123536, 123565); (123584, 123627); (124896, 124902); (124904, 124907);
   (124909, 124910); (124912, 124926); (124928, 125124); (125184, 125251); (125259, 125259);
   (126464, 126467); (126469, 126495); (126497, 126498); (126500, 126500); (126503, 126503);
   (126505, 126514); (126516, 126519); (126521, 126521); (126523, 126523); (126530, 126530);
   (126535, 126535); (126537, 126537); (126539, 126539); (126541, 126543); (126545, 126546);
   (126548, 126548); (126551, 126551); (126553, 126553); (126555, 126555); (126557, 126557);
   (126559, 126559); (126561, 126562); (126564, 126564); (126567, 126570); (126572, 126578);
   (126580, 126583); (126585, 126588); (126590, 126590); (126592, 126601); (126603, 126619);
   (126625, 126627); (126629, 126633); (126635, 126651); (131072, 173791); (173824, 177976);
   (177984, 178205); (178208, 183969); (183984, 191456); (194560, 195101); (196608, 201546)]%N.

(** White space characters, as inclusive ranges. *)
Definition space_ranges : list (N * N) :=
  [(9, 13); (28, 32); (133, 133); (160, 160); (5760, 5760); (8192, 8202); (8232, 8233);
   (8239, 8239); (8287, 8287); (12288, 12288)]%N.

(** The decimal value of a character, if it has one: the offset from the zero
    of its script. *)
Definition decimal_value (c : N) : option Z :=
  match List.find (fun z : N => (z <=? c)%N && (c <=? z + 9)%N) decimal_zeros with
  | Some z => Some (Z.of_N (c - z))
  | None => None
  end.

End Unicode.

Arguments Unicode.decimal_value : simpl never.
Arguments Unicode.in_ranges : simpl never.

(** [Py_UNICODE_ISDECIMAL], [Py_UNICODE_ISDIGIT], [Py_UNICODE_ISNUMERIC],
    [Py_UNICODE_ISALPHA], [Py_UNICODE_ISSPACE] and [Py_UNICODE_ISALNUM]. *)
Definition isdecimal_char (c : char) : bool :=
  match Unicode.decimal_value c with Some _ => true | None => false end.

Definition isdigit_char (c : char) : bool :=
  isdecimal_char c || Unicode.in_ranges c Unicode.digit_only_ranges.

Definition isnumeric_char (c : char) : bool :=
  isdigit_char c || Unicode.in_ranges c Unicode.numeric_only_ranges.

Definition isalpha_char (c : char) : bool :=
  Unicode.in_ranges c Unicode.alpha_ranges.

Definition isspace_char (c : char) : bool :=
  Unicode.in_ranges c Unicode.space_ranges.

Definition isalnum_char (c : char) : bool :=
  isalpha_char c || isdecimal_char c || isdigit_char c || isnumeric_char c.

(** [str.isdigit]: every character is a digit and there is at least one. *)
Definition isdigit (s : pystr) : bool :=
  match s with
  | [] => false
  | _ => forallb isdigit_char s
  end.

(** [str.isdecimal], the strings [int] reads digit by digit. *)
Definition isdecimal (s : pystr) : bool :=
  match s with
  | [] => false
  | _ => forallb isdecimal_char s
  end.

(** [str.strip] without argument: white space removed at both ends. *)
Fixpoint lstrip (s : pystr) : pystr :=
  match s with
  | [] => []
  | c :: rest => if isspace_char c then lstrip rest else s
  end.

Definition rstrip (s : pystr) : pystr := rev (lstrip (rev s)).

Definition strip (s : pystr) : pystr := rstrip (lstrip s).

(** [sep.join(parts)]. *)
Fixpoint join (sep : pystr) (parts : list pystr) : pystr :=
  match parts with
  | [] => []
  | [p] => p
  | p :: rest => p ++ sep ++ join sep rest
  end.

(** ** Exceptions *)

(** The exceptions: those of the class [Exception], which an
    [except Exception] clause catches, and those outside it
    ([KeyboardInterrupt], [SystemExit] and the other direct subclasses of
    [BaseException]), which it lets through. *)
Inductive exn : Type :=
  | ValueError
  | UnicodeEncodeError
  | HTTPException (status_code : Z) (detail : string)
  | OtherException (what : string)
  | KeyboardInterrupt
  | SystemExit
  | OtherBaseException (what : string).

(** [isinstance(e, Exception)] *)
Definition is_Exception (e : exn) : bool :=
  match e with
  | KeyboardInterrupt | SystemExit | OtherBaseException _ => false
  | _ => true
  end.

Inductive result (A : Type) : Type :=
  | Ok (a : A)
  | Raise (e : exn).

Arguments Ok {A} a.
Arguments Raise {A} e.

(** Sequencing: the first exception raised ends the computation. *)
#[global] Instance result_bind : MBind result :=
  fun A B (k : A -> result B) (r : result A) =>
    match r with
    | Ok a => k a
    | Raise e => Raise e
    end.

(** [try: r except Exception as e: handler(e)]: an exception outside the class
    [Exception] is not caught. *)
Definition except_Exception {A : Type} (r : result A) (handler : exn -> result A)
  : result A :=
  match r with
  | Ok a => Ok a
  | Raise e => if is_Exception e then handler e else Raise e
  end.

(** A list comprehension whose body can raise. *)
Fixpoint for_each {A B : Type} (f : A -> result B) (l : list A) : result (list B) :=
  match l with
  | [] => Ok []
  | a :: rest => b ← f a; bs ← for_each f rest; Ok (b :: bs)
  end.

(** ** The checksum validator *)

(** [int(ch)] on a one-character string: the decimal value of the character,
    [ValueError] when it has none. *)
Definition int (ch : char) : result Z :=
  match Unicode.decimal_value ch with
  | Some d => Ok d
  | None => Raise ValueError
  end.

(** The body of the [for idx, digit in enumerate(digits)] loop. *)
Definition luhn_step (parity idx : nat) (digit checksum : Z) : Z :=
  if Nat.eqb (idx mod 2) parity then
    let doubled := (digit * 2)%Z in
    let doubled := if (9 <? doubled)%Z then (doubled - 9)%Z else doubled in
    (checksum + doubled)%Z
  else (checksum + digit)%Z.

Fixpoint luhn_loop (parity idx : nat) (digits : list Z) (checksum : Z) : Z :=
  match digits with
  | [] => checksum
  | digit :: rest => luhn_loop parity (S idx) rest (luhn_step parity idx digit checksum)
  end.

Definition luhn_checksum_is_valid (number_str : pystr) : result bool :=
  if negb (isdigit number_str) then Ok false
  else
    digits ← for_each int number_str;
    let checksum := 0%Z in
    let parity := length digits mod 2 in
    let checksum := luhn_loop parity 0 digits checksum in
    Ok (checksum mod 10 =? 0)%Z.

(** ** The regular expression *)

(** The items [IMEI_REGEX] is made of: the word boundary and a run of exactly
    [n] decimal digits. *)
Inductive re_item : Type :=
  | WordBoundary
  | Digits (n : nat).

(** [re.compile(r"\b\d{15}\b")] *)
Definition IMEI_REGEX : list re_item := [WordBoundary; Digits 15; WordBoundary].

(** [\w] on a [str]: an alphanumeric character or the underscore. *)
Definition is_word (c : char) : bool := isalnum_char c || (c =? 95)%N.

(** Outside the string there is no word character. *)
Definition is_word_at (o : option char) : bool :=
  match o with
  | Some c => is_word c
  | None => false
  end.

(** [\b] between the character [prev] before the position and the rest [s] of
    the string from the position on. *)
Definition at_boundary (prev : option char) (s : pystr) : bool :=
  xorb (is_word_at prev) (is_word_at (head s)).

(** [\d{n}]: the matched digits and what follows them. *)
Fixpoint match_digits (n : nat) (s : pystr) : option (pystr * pystr) :=
  match n with
  | 0 => Some ([], s)
  | S k =>
      match s with
      | [] => None
      | c :: rest =>
          if isdecimal_char c then
            match match_digits k rest with
            | Some (m, r) => Some (c :: m, r)
            | None => None
            end
          else None
      end
  end.

(** The character before the position reached after matching [m]. *)
Definition prev_after (prev : option char) (m : pystr) : option char :=
  match last m with
  | Some c => Some c
  | None => prev
  end.

(** A match of the items in sequence at one position.  No item offers a
    choice, so there is nothing to backtrack over. *)
Fixpoint match_here (pat : list re_item) (prev : option char) (s : pystr)
  : option (pystr * pystr) :=
  match pat with
  | [] => Some ([], s)
  | WordBoundary :: pat' =>
      if at_boundary prev s then match_here pat' prev s else None
  | Digits n :: pat' =>
      match match_digits n s with
      | Some (m, rest) =>
          match match_here pat' (prev_after prev m) rest with
          | Some (m', rest') => Some (m ++ m', rest')
          | None => None
          end
      | None => None
      end
  end.

(** The left-to-right search of [finditer]: at position [pos], [skip]
    characters of the last match are still to be passed over; with none left
    the pattern is tried, and the search resumes after the match, or one
    character further when there is none. *)
Fixpoint scan (pat : list re_item) (prev : option char) (pos : nat) (s : pystr)
  (skip : nat) : list (nat * pystr) :=
  match skip with
  | S k =>
      match s with
      | [] => []
      | c :: rest => scan pat (Some c) (S pos) rest k
      end
  | 0 =>
      match match_here pat prev s with
      | Some (m, _) =>
          (pos, m) ::
          match s with
          | [] => []
          | c :: rest => scan pat (Some c) (S pos) rest (pred (length m))
          end
      | None =>
          match s with
          | [] => []
          | c :: rest => scan pat (Some c) (S pos) rest 0
          end
      end
  end.

(** [pattern.finditer(text)]: the matches with their start positions. *)
Definition finditer (pat : list re_item) (text : pystr) : list (nat * pystr) :=
  scan pat None 0 text 0.

(** [pattern.findall(text)]: the matched strings. *)
Definition findall (pat : list re_item) (text : pystr) : list pystr :=
  map snd (finditer pat text).

(** ** The candidate scanner *)

(** The [for candidate in candidates] loop, with its two variables. *)
Fixpoint candidates_loop (candidates : list pystr) (valid : list pystr)
  (seen : gset pystr) : result (list pystr) :=
  match candidates with
  | [] => Ok valid
  | candidate :: rest =>
      if decide (candidate ∈ seen) then candidates_loop rest valid seen
      else
        ok ← luhn_checksum_is_valid candidate;
        if ok : bool then candidates_loop rest (valid ++ [candidate]) (seen ∪ {[candidate]})
        else candidates_loop rest valid seen
  end.

Definition extract_imeis_from_text (text : pystr) : result (list pystr) :=
  match text with
  | [] => Ok []
  | _ =>
      let candidates := findall IMEI_REGEX text in
      candidates_loop candidates [] ∅
  end.

(** ** The external services

    The PDF parser, the rasterizer, the OCR engine and the temporary file are
    given by what they return or raise for the upload at hand. *)

(** A page of [pdf.pages]: [page.extract_text(x_tolerance=1.5,
    y_tolerance=1.5)] and [page.extract_text()], either of which returns a
    string or [None], or raises. *)
Record page : Type := {
  extract_text_tolerance : result (option pystr);
  extract_text : result (option pystr)
}.

(** An image, given by the outcome of [pytesseract.image_to_string] on it. *)
Record image : Type := {
  image_to_string : result pystr
}.

Record services : Type := {
  (** [save_upload_to_temp(file)]: the path and the number of bytes *)
  save_upload_to_temp : result (pystr * N);
  (** [Path(tmp_path).name] *)
  Path_name : pystr -> pystr;
  (** [pdfplumber.open(pdf_path)] and its [pages] *)
  pdfplumber_open : result (list page);
  (** [convert_from_path(pdf_path, dpi=300)] *)
  convert_from_path : result (list image);
  (** [Image.open(image_path)] *)
  Image_open : result image
}.

(** Truth value of a string: it is not empty. *)
Definition truthy (s : pystr) : bool :=
  match s with
  | [] => false
  | _ => true
  end.

(** [x or s] with [s] the empty string, for [x] a string or [None]. *)
Definition or_empty (x : option pystr) : pystr :=
  match x with
  | Some t => t
  | None => []
  end.

(** ** The text helpers *)

(** The body of the loop over the pages: the text of one page. *)
Definition page_text (p : page) : result pystr :=
  except_Exception
    (t ← extract_text_tolerance p; Ok (or_empty t))
    (fun _ => t ← extract_text p; Ok (or_empty t)).

Fixpoint pages_loop (pages : list page) (parts : list pystr) : result (list pystr) :=
  match pages with
  | [] => Ok parts
  | p :: rest =>
      text ← page_text p;
      pages_loop rest (if truthy text then parts ++ [text] else parts)
  end.

Definition newline : pystr := [10%N].

Definition extract_text_with_pdfplumber (sv : services) : result pystr :=
  pages ← pdfplumber_open sv;
  parts ← pages_loop pages [];
  Ok (strip (join newline parts)).

Fixpoint images_loop (images : list image) (parts : list pystr) : result (list pystr) :=
  match images with
  | [] => Ok parts
  | img :: rest =>
      text ← image_to_string img;
      images_loop rest (if truthy text then parts ++ [text] else parts)
  end.

Definition extract_text_with_pdf_ocr (sv : services) : result pystr :=
  images ← convert_from_path sv;
  parts ← images_loop images [];
  Ok (strip (join newline parts)).

Definition extract_text_from_image (sv : services) : result pystr :=
  img ← Image_open sv;
  text ← image_to_string img;
  Ok (strip text).

(** ** The request handler *)

Module UploadFile.
Record t : Type := {
  filename : option pystr;
  content_type : option pystr
}.
End UploadFile.

Record ExtractResponse : Type := {
  filename : pystr;
  method_used : string;
  imeis : list pystr;
  num_chars_extracted : nat;
  num_imeis_found : nat
}.

(** [x or fallback] for [x] a string or [None]: [x] when it is a string that is
    not empty. *)
Definition filename_or (x : option pystr) (fallback : pystr) : pystr :=
  match x with
  | Some (c :: name) => c :: name
  | _ => fallback
  end.

(** A surrogate code point, which UTF-8 cannot encode. *)
Definition is_surrogate (c : char) : bool := (55296 <=? c)%N && (c <=? 57343)%N.

(** [s.encode("utf-8")] returns. *)
Definition utf8_encodable (s : pystr) : bool :=
  forallb (fun c : char => negb (is_surrogate c)) s.

(** [JSONResponse(status_code=200, content=...)], line 218: the content is
    rendered at once, by [json.dumps] without escaping and the encoding of
    its result as UTF-8, which raises [UnicodeEncodeError] on a string with a
    surrogate.  The method label is an ASCII literal. *)
Definition JSONResponse (content : ExtractResponse) : result ExtractResponse :=
  if utf8_encodable (filename content) && forallb utf8_encodable (imeis content)
  then Ok content
  else Raise UnicodeEncodeError.

Definition endswith (s suffix : pystr) : bool :=
  bool_decide (drop (length s - length suffix) s = suffix).

Section Handler.

(** [str.lower], the case mapping of the character database. *)
Variable lower : pystr -> pystr.

Definition is_pdf (filename : pystr) (content_type : option pystr) : bool :=
  if truthy filename && endswith (lower filename) (str ".pdf") then true
  else
    match content_type with
    | Some ct =>
        if truthy ct
           && bool_decide (lower ct ∈ [str "application/pdf"; str "application/x-pdf"])
        then true
        else false
    | None => false
    end.

(** The PDF branch, lines 179 to 198: the two variables [method_used] and
    [extracted_text] after each of its three statements. *)
Definition pdf_branch (sv : services) : result (string * pystr) :=
  state ←
    except_Exception
      (t ← extract_text_with_pdfplumber sv; Ok ("pdfplumber"%string, t))
      (fun _ => Ok (EmptyString, []));
  let method_used := fst state in
  let extracted_text := snd state in
  state ←
    (if negb (truthy extracted_text) || (length extracted_text <? 10) then
       except_Exception
         (ocr_text ← extract_text_with_pdf_ocr sv;
          if truthy ocr_text then Ok ("pdf_ocr"%string, ocr_text)
          else Ok (method_used, extracted_text))
         (fun _ => Ok (method_used, extracted_text))
     else Ok (method_used, extracted_text));
  let method_used := fst state in
  let extracted_text := snd state in
  let method_used :=
    if String.eqb method_used EmptyString then "unknown_pdf"%string else method_used in
  Ok (method_used, extracted_text).

(** The image branch, lines 201 to 206. *)
Definition image_branch (sv : services) : result (string * pystr) :=
  except_Exception
    (t ← extract_text_from_image sv; Ok ("image_ocr"%string, t))
    (fun _ => Raise (HTTPException 400 "Failed to process image file for OCR")).

(** The choice of the method, lines 175 to 206: the method label and the
    extracted text. *)
Definition select_and_extract (sv : services) (file : UploadFile.t)
  : result (string * pystr) :=
  if is_pdf (or_empty (UploadFile.filename file)) (UploadFile.content_type file)
  then pdf_branch sv
  else image_branch sv.

(** The body of the [try] statement, lines 167 to 227. *)
Definition extract_imei_body (sv : services) (file : UploadFile.t)
  : result ExtractResponse :=
  saved ← save_upload_to_temp sv;
  let tmp_path := fst saved in
  selected ← select_and_extract sv file;
  let method_used := fst selected in
  let extracted_text := snd selected in
  let num_chars := length extracted_text in
  imeis ← extract_imeis_from_text extracted_text;
  JSONResponse
    {| filename := filename_or (UploadFile.filename file) (Path_name sv tmp_path);
       method_used := method_used;
       imeis := imeis;
       num_chars_extracted := num_chars;
       num_imeis_found := length imeis |}.

(** The handler: an [HTTPException] passes through, any other exception of
    the class [Exception] becomes the status 500, and an exception outside
    that class is caught by neither clause. *)
Definition extract_imei (sv : services) (file : UploadFile.t) : result ExtractResponse :=
  match extract_imei_body sv file with
  | Ok response => Ok response
  | Raise (HTTPException status_code detail) => Raise (HTTPException status_code detail)
  | Raise e =>
      except_Exception (Raise e)
        (fun _ => Raise (HTTPException 500 "Internal server error during IMEI extraction"))
  end.

End Handler.

(** ** The reference checksum

    Luhn's rule in the words of the specification: counting from the rightmost
    digit, every second digit is doubled, a doubled digit above 9 loses 9, and
    the sum of all of them is a multiple of 10. *)

Definition luhn_double (d : Z) : Z :=
  let doubled := (d * 2)%Z in
  if (9 <? doubled)%Z then (doubled - 9)%Z else doubled.

(** The sum over the digits listed from the rightmost one. *)
Fixpoint luhn_sum_from_right (rdigits : list Z) : Z :=
  match rdigits with
  | [] => 0%Z
  | [d] => d
  | d1 :: d2 :: rest => (d1 + luhn_double d2 + luhn_sum_from_right rest)%Z
  end.

Definition luhn_reference (digits : list Z) : bool :=
  (luhn_sum_from_right (rev digits) mod 10 =? 0)%Z.

(** The digits of a decimal string. *)
Definition digit_values (s : pystr) : list Z :=
  map (fun c : char => default 0%Z (Unicode.decimal_value c)) s.

(** What a match of [IMEI_REGEX] at position [p] of [text] is: fifteen decimal
    digits with no word character on either side. *)
Definition match_at (text : pystr) (p : nat) (c : pystr) : Prop :=
  exists pre post,
    text = pre ++ c ++ post /\ length pre = p /\ length c = 15 /\
    forallb isdecimal_char c = true /\
    is_word_at (last pre) = false /\ is_word_at (head post) = false.

(** The reference sum with the doubling started at the first digit of the
    list ([true]) or at the second one ([false]). *)
Fixpoint luhn_weighted_sum (doubled : bool) (digits : list Z) : Z :=
  match digits with
  | [] => 0%Z
  | d :: rest =>
      ((if doubled then luhn_double d else d) + luhn_weighted_sum (negb doubled) rest)%Z
  end.

(** The ASCII character of a digit, [str(d)] for [d] from 0 to 9. *)
Definition digit_char (d : Z) : char := Z.to_N (48 + d).

(** ** Logging *)

Definition LOG_FILE_NAME : string := "imei_extractor.log".

(** [logging.INFO] *)
Definition INFO : Z := 20.

Inductive handler_kind : Type :=
  | StreamHandler
  | FileHandler (filename : string).

(** A handler: its kind, its level and its formatter, a format with a date
    format. *)
Record Handler : Type := {
  handler_kind_of : handler_kind;
  handler_level : Z;
  handler_formatter : string * string
}.

(** The logger named ["imei_extractor"] of the [logging] registry. *)
Record Logger : Type := {
  logger_level : Z;
  handlers : list Handler
}.

Definition setLevel (level : Z) (logger : Logger) : Logger :=
  {| logger_level := level; handlers := handlers logger |}.

Definition addHandler (h : Handler) (logger : Logger) : Logger :=
  {| logger_level := logger_level logger; handlers := handlers logger ++ [h] |}.

(** [setup_logging], lines 28 to 53, on the state [logger] of the logger.
    Creating the file handler opens the log file, which can raise; the other
    calls do not. *)
Definition setup_logging (open_log_file : result unit) (logger : Logger)
  : Logger * result unit :=
  let logger := setLevel INFO logger in
  match handlers logger with
  | _ :: _ => (logger, Ok tt)
  | [] =>
      let log_formatter :=
        ("%(asctime)s | %(levelname)s | %(name)s | %(message)s"%string,
         "%Y-%m-%d %H:%M:%S"%string) in
      let console_handler :=
        {| handler_kind_of := StreamHandler; handler_level := INFO;
           handler_formatter := log_formatter |} in
      let logger := addHandler console_handler logger in
      match open_log_file with
      | Raise e => (logger, Raise e)
      | Ok _ =>
          let file_handler :=
            {| handler_kind_of := FileHandler LOG_FILE_NAME; handler_level := INFO;
               handler_formatter := log_formatter |} in
          let logger := addHandler file_handler logger in
          (logger, Ok tt)
      end
  end.

(** ** Storing the upload *)

Abbreviation bytes := (list Byte.byte).

(** The [while True] loop of [save_upload_to_temp], lines 146 to 151, with its
    variable [total_bytes] and the content [out_file] of the temporary file.
    Each turn is given by what [upload.file.read] returns or raises and, for
    a chunk that is not empty, what [out_file.write] does; after the last
    turn of the list [read] returns the empty chunk. *)
Fixpoint copy_loop (turns : list (result bytes * result unit)) (total_bytes : nat)
  (out_file : bytes) : result (nat * bytes) :=
  match turns with
  | [] => Ok (total_bytes, out_file)
  | (read, write) :: rest =>
      chunk ← read;
      match chunk with
      | [] => Ok (total_bytes, out_file)
      | _ =>
          let total_bytes := total_bytes + length chunk in
          _ ← write;
          copy_loop rest total_bytes (out_file ++ chunk)
      end
  end.

(** What a page yields: the value of the call with tolerances, or the value
    of the plain call when the first one raises an exception of the class
    [Exception]. *)
Definition page_yields (p : page) (t : option pystr) : Prop :=
  extract_text_tolerance p = Ok t \/
  exists e, extract_text_tolerance p = Raise e /\ is_Exception e = true /\
            extract_text p = Ok t.

(** ** Inputs of the examples *)

(** [str.lower] on the letters A to Z; it is [str.lower] on ASCII strings. *)
Definition lower_ascii (s : pystr) : pystr :=
  map (fun c : N => if (65 <=? c)%N && (c <=? 90)%N then (c + 32)%N else c) s.

Definition scan_pdf : UploadFile.t :=
  {| UploadFile.filename := Some (str "Scan.PDF"); UploadFile.content_type := None |}.

Definition photo_png : UploadFile.t :=
  {| UploadFile.filename := Some (str "photo.png");
     UploadFile.content_type := Some (str "image/png") |}.

Definition no_services : services :=
  {| save_upload_to_temp := Ok (str "/tmp/tmpk3x9", 2048%N);
     Path_name := fun _ => str "tmpk3x9";
     pdfplumber_open := Raise (OtherException "PDFSyntaxError");
     convert_from_path := Raise (OtherException "PDFPageCountError");
     Image_open := Raise (OtherException "UnidentifiedImageError") |}.

Definition one_page (text : pystr) : result (list page) :=
  Ok [{| extract_text_tolerance := Ok (Some text); extract_text := Ok (Some text) |}].

(** A PDF whose text layer holds four characters and that cannot be
    rasterized. *)
Definition short_text_no_ocr : services :=
  {| save_upload_to_temp := save_upload_to_temp no_services;
     Path_name := Path_name no_services;
     pdfplumber_open := one_page (str "IMEI");
     convert_from_path := convert_from_path no_services;
     Image_open := Image_open no_services |}.

(** A PDF with an empty text layer that cannot be rasterized. *)
Definition empty_text_no_ocr : services :=
  {| save_upload_to_temp := save_upload_to_temp no_services;
     Path_name := Path_name no_services;
     pdfplumber_open := Ok [{| extract_text_tolerance := Ok None; extract_text := Ok None |}];
     convert_from_path := convert_from_path no_services;
     Image_open := Image_open no_services |}.

(** A scanned PDF: no text layer, one page that the OCR engine reads. *)
Definition scanned_pdf : services :=
  {| save_upload_to_temp := save_upload_to_temp no_services;
     Path_name := Path_name no_services;
     pdfplumber_open := Ok [{| extract_text_tolerance := Ok None; extract_text := Ok None |}];
     convert_from_path :=
       Ok [{| image_to_string := Ok (str "some text with 490154203237518") |}];
     Image_open := Image_open no_services |}.

(** An image on which the OCR engine finds only white space. *)
Definition blank_image : services :=
  {| save_upload_to_temp := save_upload_to_temp no_services;
     Path_name := Path_name no_services;
     pdfplumber_open := pdfplumber_open no_services;
     convert_from_path := convert_from_path no_services;
     Image_open := Ok {| image_to_string := Ok [32%N; 10%N; 12%N] |} |}.

(** An upload that cannot be stored. *)
Definition disk_full : services :=
  {| save_upload_to_temp := Raise (OtherException "OSError");
     Path_name := Path_name no_services;
     pdfplumber_open := pdfplumber_open no_services;
     convert_from_path := convert_from_path no_services;
     Image_open := Image_open no_services |}.

(** A PDF with a text layer of twenty characters. *)
Definition text_pdf : services :=
  {| save_upload_to_temp := save_upload_to_temp no_services;
     Path_name := Path_name no_services;
     pdfplumber_open := one_page (str "IMEI 490154203237518");
     convert_from_path := convert_from_path no_services;
     Image_open := Image_open no_services |}.

(** Four pages: a text with white space in front, a page without text, a
    page that only the plain call can read, and an empty text. *)
Definition four_pages_list : list page :=
  [ {| extract_text_tolerance := Ok (Some (str "  IMEI")); extract_text := Ok None |};
    {| extract_text_tolerance := Ok None; extract_text := Ok None |};
    {| extract_text_tolerance := Raise (OtherException "TypeError");
       extract_text := Ok (Some (str "490154203237518 ")) |};
    {| extract_text_tolerance := Ok (Some []); extract_text := Ok None |} ].

Definition four_pages : services :=
  {| save_upload_to_temp := save_upload_to_temp no_services;
     Path_name := Path_name no_services;
     pdfplumber_open := Ok four_pages_list;
     convert_from_path := convert_from_path no_services;
     Image_open := Image_open no_services |}.

(** * Properties *)

(** ** Sequencing *)

Lemma bind_Ok {A B : Type} (a : A) (k : A -> result B) : (Ok a ≫= k) = k a.
Proof. reflexivity. Qed.

Lemma bind_Raise {A B : Type} (e : exn) (k : A -> result B) : (Raise e ≫= k) = Raise e.
Proof. reflexivity. Qed.

(** ** Characters *)

Lemma isdecimal_char_value (c : char) :
  isdecimal_char c = true -> exists d, Unicode.decimal_value c = Some d.
Proof.
  unfold isdecimal_char. destruct (Unicode.decimal_value c) as [d|]; [eauto | discriminate].
Qed.

Lemma isdecimal_char_isdigit (c : char) : isdecimal_char c = true -> isdigit_char c = true.
Proof. intros H. unfold isdigit_char. rewrite H. reflexivity. Qed.

Lemma isdecimal_char_is_word (c : char) : isdecimal_char c = true -> is_word c = true.
Proof.
  intros H. unfold is_word, isalnum_char. rewrite H.
  rewrite orb_true_r. reflexivity.
Qed.

Lemma forallb_isdecimal_isdigit (s : pystr) :
  forallb isdecimal_char s = true -> forallb isdigit_char s = true.
Proof.
  induction s as [|c s IH]; simpl; [reflexivity|].
  intros [Hc Hs]%andb_true_iff.
  rewrite (isdecimal_char_isdigit c Hc), (IH Hs). reflexivity.
Qed.

Lemma isdecimal_forallb (s : pystr) :
  isdecimal s = true -> s <> [] /\ forallb isdecimal_char s = true.
Proof. destruct s; simpl; [discriminate|]. intros H. split; [discriminate | exact H]. Qed.

Lemma isdigit_of_decimal (s : pystr) :
  s <> [] -> forallb isdecimal_char s = true -> isdigit s = true.
Proof.
  intros Hne H. destruct s as [|c s]; [contradiction|].
  unfold isdigit. apply forallb_isdecimal_isdigit. exact H.
Qed.

(** ** The validator *)

Lemma for_each_int_decimal (s : pystr) :
  forallb isdecimal_char s = true -> for_each int s = Ok (digit_values s).
Proof.
  induction s as [|c s IH]; [reflexivity|].
  cbn [forallb for_each digit_values map].
  intros [Hc Hs]%andb_true_iff.
  destruct (isdecimal_char_value c Hc) as [d Hd].
  rewrite (IH Hs). unfold int. rewrite Hd, !bind_Ok. reflexivity.
Qed.

Lemma luhn_checksum_decimal (s : pystr) :
  s <> [] -> forallb isdecimal_char s = true ->
  luhn_checksum_is_valid s =
    Ok (luhn_loop (length (digit_values s) mod 2) 0 (digit_values s) 0 mod 10 =? 0)%Z.
Proof.
  intros Hne H. unfold luhn_checksum_is_valid.
  rewrite (isdigit_of_decimal s Hne H). cbn [negb].
  rewrite (for_each_int_decimal s H). reflexivity.
Qed.

Lemma luhn_step_double (parity idx : nat) (digit checksum : Z) :
  luhn_step parity idx digit checksum =
    (checksum + if Nat.eqb (idx mod 2) parity then luhn_double digit else digit)%Z.
Proof. unfold luhn_step, luhn_double. destruct (Nat.eqb _ _); reflexivity. Qed.

(** One more digit on the left of a number: it is doubled when an odd number
    of digits stands to its right. *)
Lemma luhn_sum_from_right_snoc (l : list Z) (d : Z) :
  luhn_sum_from_right (l ++ [d]) =
    (luhn_sum_from_right l + if Nat.even (length l) then d else luhn_double d)%Z.
Proof.
  enough (H : forall l : list Z,
    (luhn_sum_from_right (l ++ [d]) =
       (luhn_sum_from_right l + if Nat.even (length l) then d else luhn_double d)%Z) /\
    (forall a, luhn_sum_from_right ((a :: l) ++ [d]) =
       (luhn_sum_from_right (a :: l)
        + if Nat.even (length (a :: l)) then d else luhn_double d)%Z))
    by apply H.
  clear l. induction l as [|b l [IH1 IH2]].
  - split; [simpl; lia | intros a; simpl; lia].
  - split; [apply IH2|].
    intros a. change (luhn_sum_from_right ((a :: b :: l) ++ [d]))
      with (a + luhn_double b + luhn_sum_from_right (l ++ [d]))%Z.
    rewrite IH1.
    change (luhn_sum_from_right (a :: b :: l))
      with (a + luhn_double b + luhn_sum_from_right l)%Z.
    change (Nat.even (length (a :: b :: l))) with (Nat.even (length l)).
    lia.
Qed.

Lemma eqb_mod2_even (idx n : nat) :
  Nat.eqb (idx mod 2) ((idx + S n) mod 2) = negb (Nat.even n).
Proof.
  rewrite <- Nat.add_succ_comm.
  destruct (Nat.even n) eqn:He.
  - apply Nat.even_spec in He. destruct He as [k ->].
    apply Nat.eqb_neq. intros Heq.
    pose proof (Nat.mod_upper_bound idx 2 ltac:(lia)).
    pose proof (Nat.div_mod_eq idx 2). pose proof (Nat.div_mod_eq (S idx + 2 * k) 2).
    pose proof (Nat.mod_upper_bound (S idx + 2 * k) 2 ltac:(lia)). lia.
  - assert (Ho : Nat.odd n = true) by (rewrite <- Nat.negb_even, He; reflexivity).
    apply Nat.odd_spec in Ho. destruct Ho as [k ->].
    apply Nat.eqb_eq.
    pose proof (Nat.mod_upper_bound idx 2 ltac:(lia)).
    pose proof (Nat.div_mod_eq idx 2). pose proof (Nat.div_mod_eq (S idx + (2 * k + 1)) 2).
    pose proof (Nat.mod_upper_bound (S idx + (2 * k + 1)) 2 ltac:(lia)). lia.
Qed.

(** The loop, started at index [idx] with the digits from there on, adds the
    reference sum of those digits. *)
Lemma luhn_loop_reference (digits : list Z) (idx : nat) (checksum : Z) :
  luhn_loop ((idx + length digits) mod 2) idx digits checksum =
    (checksum + luhn_sum_from_right (rev digits))%Z.
Proof.
  revert idx checksum. induction digits as [|d digits IH]; intros idx checksum.
  - simpl. lia.
  - cbn [luhn_loop length rev].
    replace (idx + S (length digits)) with (S idx + length digits) by lia.
    rewrite IH. rewrite luhn_step_double, luhn_sum_from_right_snoc, length_rev.
    replace (S idx + length digits) with (idx + S (length digits)) by lia.
    rewrite eqb_mod2_even. destruct (Nat.even (length digits)); simpl; lia.
Qed.

Lemma forallb_false_elem (f : char -> bool) (s : pystr) :
  forallb f s = false <-> exists c, c ∈ s /\ f c = false.
Proof.
  induction s as [|c0 s IH]; simpl.
  - split; [discriminate|]. intros (c & Hc & _). inversion Hc.
  - rewrite andb_false_iff, IH. split.
    + intros [H | (c & Hc & Hf)].
      * exists c0. split; [apply list_elem_of_here | exact H].
      * exists c. split; [apply list_elem_of_further, Hc | exact Hf].
    + intros (c & Hc & Hf). apply elem_of_cons in Hc as [-> | Hc]; [left; exact Hf|].
      right. exists c. split; assumption.
Qed.

Lemma isdigit_false_iff (s : pystr) :
  isdigit s = false <-> s = [] \/ exists c, c ∈ s /\ isdigit_char c = false.
Proof.
  destruct s as [|c0 s].
  - split; [left; reflexivity | reflexivity].
  - unfold isdigit. rewrite forallb_false_elem. split.
    + intros H. right. exact H.
    + intros [H | H]; [discriminate | exact H].
Qed.

Lemma luhn_loop_zeros (parity idx n : nat) (checksum : Z) :
  luhn_loop parity idx (replicate n 0%Z) checksum = checksum.
Proof.
  revert idx checksum. induction n as [|n IH]; intros idx checksum; [reflexivity|].
  cbn [replicate luhn_loop]. rewrite IH, luhn_step_double.
  destruct (Nat.eqb _ _); unfold luhn_double; simpl; lia.
Qed.

Lemma zero_char_decimal : Unicode.decimal_value 48%N = Some 0%Z.
Proof. vm_compute. reflexivity. Qed.

Lemma forallb_replicate_zero (n : nat) : forallb isdecimal_char (replicate n 48%N) = true.
Proof.
  induction n as [|n IH]; [reflexivity|].
  cbn [replicate forallb]. rewrite IH. unfold isdecimal_char.
  rewrite zero_char_decimal. reflexivity.
Qed.

Lemma digit_values_replicate_zero (n : nat) :
  digit_values (replicate n 48%N) = replicate n 0%Z.
Proof.
  induction n as [|n IH]; [reflexivity|].
  cbn [replicate digit_values map]. rewrite zero_char_decimal.
  unfold digit_values in IH. rewrite IH. reflexivity.
Qed.

(** C2, as the code has it: a string that is empty or holds a character that
    is not a digit is rejected with [False]; the length plays no part in the
    answer. *)
Theorem luhn_rejects_non_digit (s : pystr) :
  s = [] \/ (exists c, c ∈ s /\ isdigit_char c = false) ->
  luhn_checksum_is_valid s = Ok false.
Proof.
  intros H. apply isdigit_false_iff in H.
  unfold luhn_checksum_is_valid. rewrite H. reflexivity.
Qed.

Lemma luhn_rejects_non_digit_witness :
  (str "12a" = [] \/ (exists c, c ∈ str "12a" /\ isdigit_char c = false)) /\
  luhn_checksum_is_valid (str "12a") = Ok false.
Proof.
  assert (H : str "12a" = [] \/ (exists c, c ∈ str "12a" /\ isdigit_char c = false)).
  { right. exists 97%N. split; [|vm_compute; reflexivity].
    vm_compute. do 2 apply list_elem_of_further. apply list_elem_of_here. }
  split; [exact H | exact (luhn_rejects_non_digit (str "12a") H)].
Defined.

(** C2 as stated fails: the one-digit string ["0"] has a length other than 15
    and is accepted. *)
Lemma luhn_length_not_checked :
  ~ (forall s : pystr,
       (exists c, c ∈ s /\ isdigit_char c = false) \/ length s <> 15 ->
       luhn_checksum_is_valid s = Ok false).
Proof.
  intros H. specialize (H (str "0")).
  assert (Hlen : length (str "0") <> 15) by (vm_compute; lia).
  specialize (H (or_intror Hlen)). vm_compute in H. discriminate H.
Qed.

(** C3: on a string of decimal digits the validator, which doubles the digit
    at index [i] from the left when [i mod 2] is the length [mod 2], computes
    the reference checksum, which doubles every second digit from the right;
    the length is any, even or odd. *)
Theorem luhn_parity_indexing_is_reference (s : pystr) :
  isdecimal s = true ->
  luhn_checksum_is_valid s = Ok (luhn_reference (digit_values s)).
Proof.
  intros [Hne H]%isdecimal_forallb.
  rewrite (luhn_checksum_decimal s Hne H). unfold luhn_reference.
  pose proof (luhn_loop_reference (digit_values s) 0 0) as E.
  rewrite Nat.add_0_l, Z.add_0_l in E. rewrite E. reflexivity.
Qed.

Lemma luhn_parity_indexing_is_reference_witness :
  (isdecimal (str "490154203237518") = true /\
   luhn_checksum_is_valid (str "490154203237518") =
     Ok (luhn_reference (digit_values (str "490154203237518")))) /\
  (isdecimal (str "4539578763621486") = true /\
   luhn_checksum_is_valid (str "4539578763621486") =
     Ok (luhn_reference (digit_values (str "4539578763621486")))).
Proof.
  split.
  - assert (H : isdecimal (str "490154203237518") = true) by (vm_compute; reflexivity).
    split; [exact H | exact (luhn_parity_indexing_is_reference _ H)].
  - assert (H : isdecimal (str "4539578763621486") = true) by (vm_compute; reflexivity).
    split; [exact H | exact (luhn_parity_indexing_is_reference _ H)].
Defined.

(** C8: a string of zeros of any positive length is valid; the validator
    asks for no particular length. *)
Theorem luhn_all_zero_valid (n : nat) :
  0 < n -> luhn_checksum_is_valid (replicate n 48%N) = Ok true.
Proof.
  intros Hn.
  rewrite luhn_checksum_decimal.
  - rewrite digit_values_replicate_zero, luhn_loop_zeros. reflexivity.
  - destruct n; [lia | discriminate].
  - apply forallb_replicate_zero.
Qed.

Lemma luhn_all_zero_valid_witness :
  0 < 7 /\ luhn_checksum_is_valid (replicate 7 48%N) = Ok true.
Proof.
  assert (H : 0 < 7) by lia.
  split; [exact H | exact (luhn_all_zero_valid 7 H)].
Defined.

(** C9, at the input where the code leaves it: the empty string is rejected,
    but the superscript two passes [isdigit] and has no decimal value, so
    [int] raises [ValueError] and the validator with it. *)
Theorem luhn_raises_on_superscript_two :
  luhn_checksum_is_valid [] = Ok false /\
  isdigit [178%N] = true /\
  int 178%N = Raise ValueError /\
  luhn_checksum_is_valid [178%N] = Raise ValueError.
Proof. repeat split; vm_compute; reflexivity. Qed.

(** ** The regular expression *)

Lemma forallb_elem (f : char -> bool) (s : pystr) (c : char) :
  forallb f s = true -> c ∈ s -> f c = true.
Proof.
  intros H Hc. rewrite forallb_forall in H. apply H, list_elem_of_In, Hc.
Qed.

Lemma match_digits_spec (n : nat) (s m r : pystr) :
  match_digits n s = Some (m, r) ->
  s = m ++ r /\ length m = n /\ forallb isdecimal_char m = true.
Proof.
  revert s m r. induction n as [|n IH]; intros s m r; simpl.
  - intros [= <- <-]. repeat split.
  - destruct s as [|c rest]; [discriminate|].
    destruct (isdecimal_char c) eqn:Hc; [|discriminate].
    destruct (match_digits n rest) as [[m' r']|] eqn:Hm; [|discriminate].
    intros [= <- <-]. destruct (IH _ _ _ Hm) as (-> & <- & Hall).
    simpl. rewrite Hc, Hall. repeat split.
Qed.

Lemma match_here_IMEI (prev : option char) (s m r : pystr) :
  match_here IMEI_REGEX prev s = Some (m, r) ->
  s = m ++ r /\ length m = 15 /\ forallb isdecimal_char m = true /\
  is_word_at prev = false /\ is_word_at (head r) = false.
Proof.
  unfold IMEI_REGEX. cbn [match_here].
  destruct (at_boundary prev s) eqn:Hb; [|discriminate].
  destruct (match_digits 15 s) as [[m1 r1]|] eqn:Hd; [|discriminate].
  destruct (at_boundary (prev_after prev m1) r1) eqn:Hb2; [|discriminate].
  intros [= <- <-]. rewrite app_nil_r.
  destruct (match_digits_spec _ _ _ _ Hd) as (-> & Hlen & Hall).
  repeat split; try assumption.
  - destruct m1 as [|c m1]; [discriminate Hlen|].
    unfold at_boundary in Hb. cbn [head app is_word_at] in Hb.
    rewrite (isdecimal_char_is_word c) in Hb.
    + destruct (is_word_at prev); [discriminate | reflexivity].
    + apply (forallb_elem _ _ _ Hall), list_elem_of_here.
  - destruct (last m1) as [c|] eqn:Hlast.
    + unfold at_boundary, prev_after in Hb2. rewrite Hlast in Hb2.
      cbn [is_word_at] in Hb2. rewrite (isdecimal_char_is_word c) in Hb2.
      * destruct (is_word_at (head r1)); [discriminate | reflexivity].
      * apply (forallb_elem _ _ _ Hall). apply last_Some in Hlast as [l' ->].
        apply elem_of_app. right. apply list_elem_of_here.
    + apply last_None in Hlast. subst m1. discriminate Hlen.
Qed.

Lemma scan_match_at (s pre : pystr) (skip p : nat) (c : pystr) :
  (p, c) ∈ scan IMEI_REGEX (last pre) (length pre) s skip ->
  match_at (pre ++ s) p c.
Proof.
  revert pre skip.
  assert (Hstep : forall (c0 : char) (rest pre : pystr) (k : nat),
    (forall pre' skip', (p, c) ∈ scan IMEI_REGEX (last pre') (length pre') rest skip' ->
                        match_at (pre' ++ rest) p c) ->
    (p, c) ∈ scan IMEI_REGEX (Some c0) (S (length pre)) rest k ->
    match_at (pre ++ c0 :: rest) p c).
  { intros c0 rest pre k IH H.
    specialize (IH (pre ++ [c0]) k).
    rewrite last_snoc, length_app, Nat.add_1_r, <- app_assoc in IH. exact (IH H). }
  assert (Hhere : forall (s pre m r : pystr),
    match_here IMEI_REGEX (last pre) s = Some (m, r) -> match_at (pre ++ s) (length pre) m).
  { intros s0 pre m r Hm.
    destruct (match_here_IMEI _ _ _ _ Hm) as (-> & Hlen & Hall & Hp & Hn).
    exists pre, r. repeat split; assumption. }
  induction s as [|c0 rest IH]; intros pre skip H.
  - destruct skip as [|k]; cbn [scan] in H; [|inversion H].
    destruct (match_here IMEI_REGEX (last pre) []) as [[m r]|] eqn:Hm; [|inversion H].
    apply list_elem_of_singleton in H. injection H as -> ->. eapply Hhere, Hm.
  - destruct skip as [|k]; cbn [scan] in H; [|eapply Hstep; eauto].
    destruct (match_here IMEI_REGEX (last pre) (c0 :: rest)) as [[m r]|] eqn:Hm.
    + apply elem_of_cons in H as [H | H].
      * injection H as -> ->. eapply Hhere, Hm.
      * eapply Hstep; eauto.
    + eapply Hstep; eauto.
Qed.

Lemma finditer_match_at (text : pystr) (p : nat) (c : pystr) :
  (p, c) ∈ finditer IMEI_REGEX text -> match_at text p c.
Proof. intros H. apply (scan_match_at text [] 0 p c H). Qed.

(** The positions of the matches increase. *)
Lemma scan_sorted (pat : list re_item) (s : pystr) (prev : option char) (pos skip : nat) :
  StronglySorted (fun a b : nat * pystr => fst a < fst b) (scan pat prev pos s skip) /\
  Forall (fun a : nat * pystr => pos <= fst a) (scan pat prev pos s skip).
Proof.
  revert prev pos skip. induction s as [|c0 rest IH]; intros prev pos skip.
  - destruct skip as [|k]; cbn [scan]; [|split; constructor].
    destruct (match_here pat prev []) as [[m r]|]; split; repeat constructor.
  - assert (Htail : forall k,
      StronglySorted (fun a b : nat * pystr => fst a < fst b)
        (scan pat (Some c0) (S pos) rest k) /\
      Forall (fun a : nat * pystr => pos < fst a) (scan pat (Some c0) (S pos) rest k)).
    { intros k. destruct (IH (Some c0) (S pos) k) as [Hs Hf]. split; [exact Hs|].
      eapply Forall_impl; [exact Hf|]. intros a Ha. simpl in Ha. lia. }
    assert (Hle : forall k,
      Forall (fun a : nat * pystr => pos <= fst a) (scan pat (Some c0) (S pos) rest k)).
    { intros k. eapply Forall_impl; [apply Htail|]. intros a Ha. simpl in Ha. lia. }
    destruct skip as [|k]; cbn [scan].
    + destruct (match_here pat prev (c0 :: rest)) as [[m r]|].
      * split; constructor; try apply Htail; try apply Hle. simpl. lia.
      * split; [apply Htail | apply Hle].
    + split; [apply Htail | apply Hle].
Qed.

Lemma finditer_sorted (pat : list re_item) (text : pystr) :
  StronglySorted (fun a b : nat * pystr => fst a < fst b) (finditer pat text).
Proof. apply scan_sorted. Qed.

(** A match that lies within a stretch of decimal digits fills it: the
    character before and the character after the match are no digits. *)
Lemma match_at_fills_run (text pre run post : pystr) (p : nat) (c : pystr) :
  match_at text p c ->
  text = pre ++ run ++ post ->
  forallb isdecimal_char run = true ->
  length pre <= p -> p + 15 <= length pre + length run ->
  length run = 15.
Proof.
  intros (pre' & post' & Htext & Hp & Hlen & _ & Hbefore & Hafter) Hrun Hall Hlo Hhi.
  assert (Hdigit : forall i x, length pre <= i < length pre + length run ->
                               text !! i = Some x -> is_word x = true).
  { intros i x Hi Hx. apply isdecimal_char_is_word, (forallb_elem _ _ _ Hall).
    rewrite Hrun, lookup_app_r, lookup_app_l in Hx by lia.
    eapply list_elem_of_lookup_2, Hx. }
  destruct (decide (length pre = p)) as [Heq | Hne].
  - destruct (decide (length run = 15)) as [? | Hne]; [assumption|]. exfalso.
    destruct post' as [|x post'].
    + apply (f_equal length) in Htext. rewrite Hrun in Htext.
      rewrite !length_app in Htext. simpl in Htext. lia.
    + cbn [head is_word_at] in Hafter.
      rewrite (Hdigit (p + 15) x) in Hafter; [discriminate | lia |].
      rewrite Htext, lookup_app_r, lookup_app_r by lia.
      replace (p + 15 - length pre' - length c) with 0 by lia. reflexivity.
  - exfalso. destruct (last pre') as [x|] eqn:Hlast.
    + cbn [is_word_at] in Hbefore.
      rewrite (Hdigit (pred p) x) in Hbefore; [discriminate | lia |].
      rewrite last_lookup in Hlast.
      rewrite Htext, lookup_app_l by lia. rewrite <- Hp. exact Hlast.
    + apply last_None in Hlast. subst pre'. simpl in Hp. lia.
Qed.

(** ** The candidate scanner *)

Lemma luhn_total_on_decimal (c : pystr) :
  length c = 15 -> forallb isdecimal_char c = true ->
  exists b, luhn_checksum_is_valid c = Ok b.
Proof.
  intros Hlen Hall. rewrite luhn_checksum_decimal; [eauto | | exact Hall].
  intros ->. discriminate Hlen.
Qed.

(** The loop over the candidates [pcs], given with their positions: what it
    appends to [valid]. *)
Lemma candidates_loop_spec (pcs : list (nat * pystr)) :
  StronglySorted (fun a b : nat * pystr => fst a < fst b) pcs ->
  (forall p c, (p, c) ∈ pcs -> exists b, luhn_checksum_is_valid c = Ok b) ->
  forall (valid : list pystr) (seen : gset pystr),
    (forall x, x ∈ seen <-> x ∈ valid) ->
    exists l,
      candidates_loop (map snd pcs) valid seen = Ok (valid ++ l) /\
      NoDup l /\
      (forall x, x ∈ l <->
         (x ∉ valid) /\ (exists p, (p, x) ∈ pcs) /\ luhn_checksum_is_valid x = Ok true) /\
      (forall i j x y, i < j -> l !! i = Some x -> l !! j = Some y ->
         exists px, (px, x) ∈ pcs /\ forall py, (py, y) ∈ pcs -> px < py).
Proof.
  induction pcs as [|[p c] pcs IH]; intros Hsorted Hluhn valid seen Hseen.
  - exists []. rewrite app_nil_r. split; [reflexivity|]. split; [constructor|]. split.
    + intros x. split; [intros H; inversion H|].
      intros (_ & (q & Hq) & _). inversion Hq.
    + intros i j x y _ Hx. rewrite lookup_nil in Hx. discriminate.
  - apply StronglySorted_inv in Hsorted as [Hsorted Hhead].
    rewrite Forall_forall in Hhead.
    assert (Hluhn' : forall q d, (q, d) ∈ pcs -> exists b, luhn_checksum_is_valid d = Ok b).
    { intros q d Hq. apply (Hluhn q d), list_elem_of_further, Hq. }
    specialize (IH Hsorted Hluhn').
    cbn [map snd candidates_loop].
    assert (Hskip : forall l,
      NoDup l ->
      (forall x, x ∈ l <->
         (x ∉ valid) /\ (exists q, (q, x) ∈ pcs) /\ luhn_checksum_is_valid x = Ok true) ->
      (forall i j x y, i < j -> l !! i = Some x -> l !! j = Some y ->
         exists px, (px, x) ∈ pcs /\ forall py, (py, y) ∈ pcs -> px < py) ->
      (c ∈ valid \/ luhn_checksum_is_valid c <> Ok true) ->
      NoDup l /\
      (forall x, x ∈ l <->
         (x ∉ valid) /\ (exists q, (q, x) ∈ (p, c) :: pcs) /\
         luhn_checksum_is_valid x = Ok true) /\
      (forall i j x y, i < j -> l !! i = Some x -> l !! j = Some y ->
         exists px, (px, x) ∈ (p, c) :: pcs /\
                    forall py, (py, y) ∈ (p, c) :: pcs -> px < py)).
    { intros l Hnd Hmem Hord Hc. split; [exact Hnd|]. split.
      - intros x. rewrite Hmem. split.
        + intros (Hv & (q & Hq) & Hx). repeat split; try assumption.
          exists q. apply list_elem_of_further, Hq.
        + intros (Hv & (q & Hq) & Hx). repeat split; try assumption.
          apply elem_of_cons in Hq as [[= -> ->] | Hq]; [|eauto].
          destruct Hc as [Hc | Hc]; contradiction.
      - intros i j x y Hij Hx Hy. destruct (Hord i j x y Hij Hx Hy) as (px & Hpx & Hlt).
        exists px. split; [apply list_elem_of_further, Hpx|].
        intros py [[= -> ->] | Hpy]%elem_of_cons; [|apply Hlt, Hpy].
        apply list_elem_of_lookup_2, Hmem in Hy. destruct Hy as (Hv & _ & Hy).
        destruct Hc as [Hc | Hc]; contradiction. }
    destruct (decide (c ∈ seen)) as [Hin | Hnin].
    + destruct (IH valid seen Hseen) as (l & Hres & Hnd & Hmem & Hord).
      exists l. split; [exact Hres|]. apply Hskip; try assumption.
      left. apply Hseen, Hin.
    + destruct (Hluhn p c (list_elem_of_here _ _)) as [b Hb]. rewrite Hb, bind_Ok.
      destruct b.
      * destruct (IH (valid ++ [c]) (seen ∪ {[c]})) as (l & Hres & Hnd & Hmem & Hord).
        { intros x. rewrite elem_of_union, elem_of_singleton, elem_of_app,
            list_elem_of_singleton, Hseen. reflexivity. }
        assert (Hcl : c ∉ l).
        { intros Hcl. apply Hmem in Hcl as [Hcl _]. apply Hcl, elem_of_app.
          right. apply list_elem_of_here. }
        exists (c :: l). rewrite Hres, <- app_assoc. split; [reflexivity|].
        split; [apply NoDup_cons; split; assumption|]. split.
        -- intros x. rewrite elem_of_cons, Hmem. split.
           ++ intros [-> | (Hv & (q & Hq) & Hx)].
              ** repeat split; [rewrite <- Hseen; exact Hnin | | exact Hb].
                 exists p. apply list_elem_of_here.
              ** repeat split; [| |exact Hx].
                 --- intros Hxv. apply Hv, elem_of_app. left. exact Hxv.
                 --- exists q. apply list_elem_of_further, Hq.
           ++ intros (Hv & (q & Hq) & Hx).
              destruct (decide (x = c)) as [-> | Hne]; [left; reflexivity|]. right.
              repeat split; [| |exact Hx].
              ** intros [Hxv | Hxc%list_elem_of_singleton]%elem_of_app; contradiction.
              ** apply elem_of_cons in Hq as [[= _ ->] | Hq]; [contradiction | eauto].
        -- intros i j x y Hij Hx Hy. destruct j as [|j]; [lia|]. cbn in Hy.
           assert (Hyc : y <> c).
           { intros ->. apply Hcl. eapply list_elem_of_lookup_2, Hy. }
           destruct i as [|i].
           ++ cbn in Hx. injection Hx as <-. exists p. split; [apply list_elem_of_here|].
              intros py [[= _ ->] | Hpy]%elem_of_cons; [contradiction|].
              apply (Hhead (py, y)), Hpy.
           ++ cbn in Hx. destruct (Hord i j x y ltac:(lia) Hx Hy) as (px & Hpx & Hlt).
              exists px. split; [apply list_elem_of_further, Hpx|].
              intros py [[= _ ->] | Hpy]%elem_of_cons; [contradiction | apply Hlt, Hpy].
      * destruct (IH valid seen Hseen) as (l & Hres & Hnd & Hmem & Hord).
        exists l. split; [exact Hres|]. apply Hskip; try assumption.
        right. rewrite Hb. discriminate.
Qed.

Lemma extract_imeis_spec (text : pystr) :
  exists l,
    extract_imeis_from_text text = Ok l /\
    NoDup l /\
    (forall x, x ∈ l <->
       (exists p, (p, x) ∈ finditer IMEI_REGEX text) /\
       luhn_checksum_is_valid x = Ok true) /\
    (forall i j x y, i < j -> l !! i = Some x -> l !! j = Some y ->
       exists px, (px, x) ∈ finditer IMEI_REGEX text /\
                  forall py, (py, y) ∈ finditer IMEI_REGEX text -> px < py).
Proof.
  destruct (candidates_loop_spec (finditer IMEI_REGEX text) (finditer_sorted _ _))
    with (valid := @nil pystr) (seen := (∅ : gset pystr))
    as (l & Hres & Hnd & Hmem & Hord).
  - intros p c (pre & post & _ & _ & Hlen & Hall & _)%finditer_match_at.
    apply luhn_total_on_decimal; assumption.
  - intros x. rewrite elem_of_empty, elem_of_nil. reflexivity.
  - destruct text as [|c0 text].
    + exists []. split; [reflexivity|]. split; [constructor|]. split.
      * intros x. split; [intros H; inversion H|].
        intros ((p & Hp) & _). vm_compute in Hp. inversion Hp.
      * intros i j x y _ Hx. rewrite lookup_nil in Hx. discriminate.
    + exists l. split; [exact Hres|]. split; [exact Hnd|]. split; [|exact Hord].
      intros x. rewrite Hmem. split; [intros (_ & H1 & H2) | intros (H1 & H2)];
        repeat split; try assumption. apply not_elem_of_nil.
Qed.

(** A text whose decimal digits all stand in one stretch longer than fifteen
    has no match at all. *)
Lemma lone_long_run_no_match (text pre run post : pystr) (p : nat) (c : pystr) :
  text = pre ++ run ++ post ->
  forallb isdecimal_char run = true -> 15 < length run ->
  (forall x, x ∈ pre ++ post -> isdecimal_char x = false) ->
  (p, c) ∉ finditer IMEI_REGEX text.
Proof.
  intros Htext Hall Hlong Hout Hin.
  pose proof (finditer_match_at _ _ _ Hin) as Hm.
  assert (Hrun : length run = 15); [|lia].
  apply (match_at_fills_run text pre run post p c Hm Htext Hall);
    destruct Hm as (pre' & post' & Htext' & Hp & Hlen & Hdec & _ & _).
  - destruct (decide (length pre <= p)) as [? | Hlt]; [assumption | exfalso].
    destruct (lookup_lt_is_Some_2 c 0 ltac:(lia)) as [x Hx].
    assert (Hx' : text !! p = Some x).
    { rewrite Htext', lookup_app_r, lookup_app_l by lia.
      replace (p - length pre') with 0 by lia. exact Hx. }
    rewrite Htext, lookup_app_l in Hx' by lia.
    assert (Hd : isdecimal_char x = true).
    { apply (forallb_elem _ _ x Hdec). eapply list_elem_of_lookup_2, Hx. }
    rewrite (Hout x) in Hd; [discriminate|].
    apply elem_of_app. left. eapply list_elem_of_lookup_2, Hx'.
  - destruct (decide (p + 15 <= length pre + length run)) as [? | Hgt]; [assumption | exfalso].
    destruct (lookup_lt_is_Some_2 c 14 ltac:(lia)) as [x Hx].
    assert (Hx' : text !! (p + 14) = Some x).
    { rewrite Htext', lookup_app_r, lookup_app_l by lia.
      replace (p + 14 - length pre') with 14 by lia. exact Hx. }
    rewrite Htext, lookup_app_r, lookup_app_r in Hx' by lia.
    assert (Hd : isdecimal_char x = true).
    { apply (forallb_elem _ _ x Hdec). eapply list_elem_of_lookup_2, Hx. }
    rewrite (Hout x) in Hd; [discriminate|].
    apply elem_of_app. right. eapply list_elem_of_lookup_2, Hx'.
Qed.

(** C4: the scanner returns the valid candidates in a list without duplicates,
    in which an identifier stands before another when its first match in the
    text comes before every match of the other; a text with one valid number
    twice and another valid number in between gives each of them once, in that
    order. *)
Theorem extract_imeis_distinct_in_first_occurrence_order :
  (forall text : pystr,
     exists l,
       extract_imeis_from_text text = Ok l /\
       NoDup l /\
       (forall x, x ∈ l <->
          (exists p, (p, x) ∈ finditer IMEI_REGEX text) /\
          luhn_checksum_is_valid x = Ok true) /\
       (forall i j x y, i < j -> l !! i = Some x -> l !! j = Some y ->
          exists px, (px, x) ∈ finditer IMEI_REGEX text /\
                     forall py, (py, y) ∈ finditer IMEI_REGEX text -> px < py)) /\
  extract_imeis_from_text (str "490154203237518 356938035643809 490154203237518") =
    Ok [str "490154203237518"; str "356938035643809"].
Proof.
  split; [exact extract_imeis_spec | vm_compute; reflexivity].
Qed.

(** C7: a run of more than fifteen digits yields no match from inside it.  No
    match of the pattern lies inside the run, every identifier of the output
    was matched at a position outside the run, and a text with no digit
    outside the run yields no identifier. *)
Theorem no_match_inside_longer_digit_run (text pre run post : pystr) :
  text = pre ++ run ++ post ->
  forallb isdecimal_char run = true ->
  15 < length run ->
  (forall p c, (p, c) ∈ finditer IMEI_REGEX text ->
     ~ (length pre <= p /\ p + length c <= length pre + length run)) /\
  (exists l,
     extract_imeis_from_text text = Ok l /\
     forall c, c ∈ l ->
       exists p, (p, c) ∈ finditer IMEI_REGEX text /\
                 ~ (length pre <= p /\ p + length c <= length pre + length run)) /\
  ((forall x, x ∈ pre ++ post -> isdecimal_char x = false) ->
   extract_imeis_from_text text = Ok []).
Proof.
  intros Htext Hall Hlong.
  assert (Hout : forall p c, (p, c) ∈ finditer IMEI_REGEX text ->
    ~ (length pre <= p /\ p + length c <= length pre + length run)).
  { intros p c Hin [Hlo Hhi]. pose proof (finditer_match_at _ _ _ Hin) as Hm.
    assert (Hlen : length c = 15) by (destruct Hm as (? & ? & ? & ? & ? & _); assumption).
    rewrite Hlen in Hhi.
    pose proof (match_at_fills_run text pre run post p c Hm Htext Hall Hlo Hhi). lia. }
  destruct (extract_imeis_spec text) as (l & Hres & _ & Hmem & _).
  split; [exact Hout|]. split.
  - exists l. split; [exact Hres|]. intros c Hc.
    apply Hmem in Hc as [[p Hp] _]. exists p. split; [exact Hp | apply Hout, Hp].
  - intros Hnone. rewrite Hres. f_equal. apply elem_of_nil_inv. intros c Hc.
    apply Hmem in Hc as [[p Hp] _].
    exact (lone_long_run_no_match text pre run post p c Htext Hall Hlong Hnone Hp).
Qed.

Lemma no_match_inside_longer_digit_run_witness :
  str "abc12345678901234567xyz" = str "abc" ++ str "12345678901234567" ++ str "xyz" /\
  forallb isdecimal_char (str "12345678901234567") = true /\
  15 < length (str "12345678901234567") /\
  extract_imeis_from_text (str "abc12345678901234567xyz") = Ok [].
Proof.
  assert (H1 : str "abc12345678901234567xyz" = str "abc" ++ str "12345678901234567" ++ str "xyz")
    by reflexivity.
  assert (H2 : forallb isdecimal_char (str "12345678901234567") = true)
    by (vm_compute; reflexivity).
  assert (H3 : 15 < length (str "12345678901234567")) by (vm_compute; lia).
  split; [exact H1|]. split; [exact H2|]. split; [exact H3|].
  destruct (no_match_inside_longer_digit_run _ _ _ _ H1 H2 H3) as (_ & _ & H).
  apply H. intros x Hx.
  assert (Hf : forallb (fun x => negb (isdecimal_char x)) (str "abc" ++ str "xyz") = true)
    by (vm_compute; reflexivity).
  rewrite forallb_forall in Hf. apply negb_true_iff, Hf, list_elem_of_In, Hx.
Defined.

(** ** The request handler *)

Section HandlerProperties.

Variable lower : pystr -> pystr.

Lemma is_pdf_select (sv : services) (file : UploadFile.t) :
  is_pdf lower (or_empty (UploadFile.filename file)) (UploadFile.content_type file) = true ->
  select_and_extract lower sv file = pdf_branch sv.
Proof. intros H. unfold select_and_extract. rewrite H. reflexivity. Qed.

Lemma not_pdf_select (sv : services) (file : UploadFile.t) :
  is_pdf lower (or_empty (UploadFile.filename file)) (UploadFile.content_type file) = false ->
  select_and_extract lower sv file = image_branch sv.
Proof. intros H. unfold select_and_extract. rewrite H. reflexivity. Qed.

(** The PDF branch when the two helpers raise nothing outside [Exception]:
    the text layer, or nothing when its extraction raised, then the OCR text
    when the first text is short and the OCR text is not empty. *)
Lemma pdf_branch_cases (sv : services) :
  (forall e, extract_text_with_pdfplumber sv = Raise e -> is_Exception e = true) ->
  (forall e, extract_text_with_pdf_ocr sv = Raise e -> is_Exception e = true) ->
  pdf_branch sv =
    Ok (let first :=
          match extract_text_with_pdfplumber sv with
          | Ok t => ("pdfplumber"%string, t)
          | Raise _ => (EmptyString, [])
          end in
        let second :=
          if negb (truthy (snd first)) || (length (snd first) <? 10) then
            match extract_text_with_pdf_ocr sv with
            | Ok (c :: ocr_text) => ("pdf_ocr"%string, c :: ocr_text)
            | _ => first
            end
          else first in
        (if String.eqb (fst second) EmptyString then "unknown_pdf"%string else fst second,
         snd second)).
Proof.
  intros Hlayer Hocr. unfold pdf_branch.
  destruct (extract_text_with_pdfplumber sv) as [t | e1].
  - rewrite bind_Ok. cbn [except_Exception]. rewrite bind_Ok. cbn [fst snd].
    destruct (negb (truthy t) || (length t <? 10)); [|rewrite bind_Ok; reflexivity].
    destruct (extract_text_with_pdf_ocr sv) as [[|c ocr] | e2].
    + rewrite bind_Ok. cbn [truthy except_Exception]. rewrite bind_Ok. reflexivity.
    + rewrite bind_Ok. cbn [truthy except_Exception]. rewrite bind_Ok. reflexivity.
    + rewrite bind_Raise. cbn [except_Exception]. rewrite (Hocr e2 eq_refl), bind_Ok.
      reflexivity.
  - rewrite bind_Raise. cbn [except_Exception]. rewrite (Hlayer e1 eq_refl), bind_Ok.
    cbn [fst snd truthy negb orb].
    destruct (extract_text_with_pdf_ocr sv) as [[|c ocr] | e2].
    + rewrite bind_Ok. cbn [truthy except_Exception]. rewrite bind_Ok. reflexivity.
    + rewrite bind_Ok. cbn [truthy except_Exception]. rewrite bind_Ok. reflexivity.
    + rewrite bind_Raise. cbn [except_Exception]. rewrite (Hocr e2 eq_refl), bind_Ok.
      reflexivity.
Qed.

(** C1, as the code has it: on a PDF whose helpers raise nothing outside
    [Exception], the label is ["unknown_pdf"] exactly when the text-layer
    extraction raised and the OCR fallback raised or returned no text; when
    the text-layer extraction returns a text, however short, and the OCR
    fallback raises, the label is ["pdfplumber"] and the text is the one of
    the text layer. *)
Theorem pdf_label_unknown_iff (sv : services) (file : UploadFile.t) :
  is_pdf lower (or_empty (UploadFile.filename file)) (UploadFile.content_type file) = true ->
  (forall e, extract_text_with_pdfplumber sv = Raise e -> is_Exception e = true) ->
  (forall e, extract_text_with_pdf_ocr sv = Raise e -> is_Exception e = true) ->
  exists label text,
    select_and_extract lower sv file = Ok (label, text) /\
    (label = "unknown_pdf"%string <->
       (exists e, extract_text_with_pdfplumber sv = Raise e) /\
       (extract_text_with_pdf_ocr sv = Ok [] \/
        exists e, extract_text_with_pdf_ocr sv = Raise e)) /\
    (forall t e,
       extract_text_with_pdfplumber sv = Ok t ->
       extract_text_with_pdf_ocr sv = Raise e ->
       label = "pdfplumber"%string /\ text = t).
Proof.
  intros Hpdf Hlayer Hocr.
  rewrite (is_pdf_select sv file Hpdf), (pdf_branch_cases sv Hlayer Hocr).
  clear Hlayer Hocr.
  destruct (extract_text_with_pdfplumber sv) as [t | e1];
    destruct (extract_text_with_pdf_ocr sv) as [[|c ocr] | e2];
    cbn [fst snd truthy negb orb length];
    try destruct (negb (truthy t) || (length t <? 10));
    cbn [fst snd String.eqb Ascii.eqb Bool.eqb andb];
    eexists _, _; (split; [reflexivity|]); split.
  all: try (intros t' e' Ht He; first [discriminate Ht | discriminate He | idtac];
            injection Ht as <-; split; reflexivity).
  all: split;
    [ first [ discriminate
            | intros _; split;
              [ eexists; reflexivity
              | first [left; reflexivity | right; eexists; reflexivity] ] ]
    | first [ reflexivity
            | intros [[e0 H0] [H1 | [e3 H1]]]; first [discriminate H0 | discriminate H1] ] ].
Qed.

(** Decimal digits are no surrogates: the identifiers can always be
    encoded. *)
Lemma decimal_not_surrogate (c : char) :
  isdecimal_char c = true -> is_surrogate c = false.
Proof.
  unfold isdecimal_char, Unicode.decimal_value.
  destruct (List.find _ Unicode.decimal_zeros) as [z|] eqn:Hfind; [|discriminate].
  intros _. apply find_some in Hfind as [Hin Hz].
  assert (Hall : forallb (fun z : N => (z + 9 <? 55296)%N || (57343 <? z)%N)
                   Unicode.decimal_zeros = true) by (vm_compute; reflexivity).
  rewrite forallb_forall in Hall. specialize (Hall z Hin).
  apply andb_true_iff in Hz as [Hlo%N.leb_le Hhi%N.leb_le].
  unfold is_surrogate. apply orb_true_iff in Hall as [H%N.ltb_lt | H%N.ltb_lt].
  - apply andb_false_iff. left. apply N.leb_gt. lia.
  - apply andb_false_iff. right. apply N.leb_gt. lia.
Qed.

Lemma extract_imeis_encodable (text : pystr) (found : list pystr) :
  extract_imeis_from_text text = Ok found -> forallb utf8_encodable found = true.
Proof.
  intros Hfound. destruct (extract_imeis_spec text) as (l & Hres & _ & Hmem & _).
  rewrite Hfound in Hres. injection Hres as <-.
  apply forallb_forall. intros x Hx%list_elem_of_In.
  apply Hmem in Hx as [[p Hp] _].
  apply finditer_match_at in Hp as (_ & _ & _ & _ & _ & Hall & _).
  apply forallb_forall. intros c Hc%list_elem_of_In.
  rewrite (decimal_not_surrogate c (forallb_elem _ _ _ Hall Hc)). reflexivity.
Qed.

(** The response of the handler when no step raises and the file name can be
    encoded. *)
Lemma extract_imei_ok (sv : services) (file : UploadFile.t) (saved : pystr * N)
  (label : string) (text : pystr) (found : list pystr) :
  save_upload_to_temp sv = Ok saved ->
  utf8_encodable (filename_or (UploadFile.filename file) (Path_name sv (fst saved)))
    = true ->
  select_and_extract lower sv file = Ok (label, text) ->
  extract_imeis_from_text text = Ok found ->
  exists name,
    extract_imei lower sv file =
      Ok {| filename := name; method_used := label; imeis := found;
            num_chars_extracted := length text; num_imeis_found := length found |}.
Proof.
  intros Hsave Hname Hsel Hfound. unfold extract_imei, extract_imei_body.
  rewrite Hsave, bind_Ok, Hsel, bind_Ok. cbn [fst snd].
  rewrite Hfound, bind_Ok. unfold JSONResponse. cbn [filename imeis].
  rewrite Hname, (extract_imeis_encodable text found Hfound). eexists. reflexivity.
Qed.

(** C5: a PDF whose text layer is empty and whose OCR fallback reads
    ["some text with 490154203237518"] is answered with the method
    ["pdf_ocr"], the length of that text and the one identifier; the file name
    of the response is one that can be encoded. *)
Theorem pdf_ocr_fallback_scenario (sv : services) (file : UploadFile.t) (saved : pystr * N) :
  is_pdf lower (or_empty (UploadFile.filename file)) (UploadFile.content_type file) = true ->
  save_upload_to_temp sv = Ok saved ->
  utf8_encodable (filename_or (UploadFile.filename file) (Path_name sv (fst saved)))
    = true ->
  extract_text_with_pdfplumber sv = Ok [] ->
  extract_text_with_pdf_ocr sv = Ok (str "some text with 490154203237518") ->
  exists name,
    extract_imei lower sv file =
      Ok {| filename := name;
            method_used := "pdf_ocr";
            imeis := [str "490154203237518"];
            num_chars_extracted := length (str "some text with 490154203237518");
            num_imeis_found := 1 |}.
Proof.
  intros Hpdf Hsave Hname Hlayer Hocr.
  apply (extract_imei_ok sv file saved "pdf_ocr"
           (str "some text with 490154203237518") [str "490154203237518"] Hsave Hname).
  - rewrite (is_pdf_select sv file Hpdf). unfold pdf_branch.
    rewrite Hlayer, Hocr. reflexivity.
  - vm_compute. reflexivity.
Qed.

(** C6: when the OCR of an image raises an exception of the class
    [Exception], the handler raises the [HTTPException] of status 400 and
    returns no response. *)
Theorem image_ocr_failure_is_bad_input (sv : services) (file : UploadFile.t)
  (saved : pystr * N) (e : exn) :
  is_pdf lower (or_empty (UploadFile.filename file)) (UploadFile.content_type file) = false ->
  save_upload_to_temp sv = Ok saved ->
  extract_text_from_image sv = Raise e ->
  is_Exception e = true ->
  extract_imei lower sv file =
    Raise (HTTPException 400 "Failed to process image file for OCR").
Proof.
  intros Hpdf Hsave Hocr He. unfold extract_imei, extract_imei_body.
  rewrite Hsave, bind_Ok, (not_pdf_select sv file Hpdf).
  unfold image_branch. rewrite Hocr, bind_Raise. cbn [except_Exception].
  rewrite He. reflexivity.
Qed.

(** C10: when the OCR of an image returns only white space, the handler
    answers with the method ["image_ocr"], no character and no identifier;
    the file name of the response is one that can be encoded. *)
Theorem image_blank_ocr_is_success (sv : services) (file : UploadFile.t)
  (saved : pystr * N) (img : image) (text : pystr) :
  is_pdf lower (or_empty (UploadFile.filename file)) (UploadFile.content_type file) = false ->
  save_upload_to_temp sv = Ok saved ->
  utf8_encodable (filename_or (UploadFile.filename file) (Path_name sv (fst saved)))
    = true ->
  Image_open sv = Ok img ->
  image_to_string img = Ok text ->
  strip text = [] ->
  exists name,
    extract_imei lower sv file =
      Ok {| filename := name;
            method_used := "image_ocr";
            imeis := [];
            num_chars_extracted := 0;
            num_imeis_found := 0 |}.
Proof.
  intros Hpdf Hsave Hname Himg Htext Hstrip.
  apply (extract_imei_ok sv file saved "image_ocr" [] [] Hsave Hname); [|reflexivity].
  rewrite (not_pdf_select sv file Hpdf). unfold image_branch, extract_text_from_image.
  rewrite Himg, bind_Ok, Htext, bind_Ok, Hstrip. reflexivity.
Qed.

End HandlerProperties.

Lemma pdf_label_unknown_iff_witness :
  is_pdf lower_ascii (or_empty (UploadFile.filename scan_pdf))
    (UploadFile.content_type scan_pdf) = true /\
  (forall e, extract_text_with_pdfplumber short_text_no_ocr = Raise e ->
             is_Exception e = true) /\
  (forall e, extract_text_with_pdf_ocr short_text_no_ocr = Raise e ->
             is_Exception e = true) /\
  exists label text,
    select_and_extract lower_ascii short_text_no_ocr scan_pdf = Ok (label, text) /\
    (label = "unknown_pdf"%string <->
       (exists e, extract_text_with_pdfplumber short_text_no_ocr = Raise e) /\
       (extract_text_with_pdf_ocr short_text_no_ocr = Ok [] \/
        exists e, extract_text_with_pdf_ocr short_text_no_ocr = Raise e)) /\
    (forall t e,
       extract_text_with_pdfplumber short_text_no_ocr = Ok t ->
       extract_text_with_pdf_ocr short_text_no_ocr = Raise e ->
       label = "pdfplumber"%string /\ text = t).
Proof.
  assert (H1 : is_pdf lower_ascii (or_empty (UploadFile.filename scan_pdf))
                 (UploadFile.content_type scan_pdf) = true) by (vm_compute; reflexivity).
  assert (H2 : forall e, extract_text_with_pdfplumber short_text_no_ocr = Raise e ->
                         is_Exception e = true).
  { intros e He. vm_compute in He. discriminate He. }
  assert (H3 : forall e, extract_text_with_pdf_ocr short_text_no_ocr = Raise e ->
                         is_Exception e = true).
  { intros e He. vm_compute in He. injection He as <-. reflexivity. }
  split; [exact H1|]. split; [exact H2|]. split; [exact H3|].
  exact (pdf_label_unknown_iff lower_ascii short_text_no_ocr scan_pdf H1 H2 H3).
Defined.

(** C1 as stated fails twice.  A text layer of four characters followed by a
    failing OCR fallback is labelled ["pdfplumber"], not ["unknown_pdf"]; and
    so is an empty text layer followed by a failing OCR fallback. *)
Lemma short_text_layer_keeps_pdfplumber_label :
  ~ (forall (lower : pystr -> pystr) (sv : services) (file : UploadFile.t)
       (t : pystr) (e : exn),
       is_pdf lower (or_empty (UploadFile.filename file)) (UploadFile.content_type file)
         = true ->
       extract_text_with_pdfplumber sv = Ok t -> t <> [] -> length t < 10 ->
       extract_text_with_pdf_ocr sv = Raise e ->
       select_and_extract lower sv file = Ok ("unknown_pdf"%string, t)) /\
  ~ (forall (lower : pystr -> pystr) (sv : services) (file : UploadFile.t)
       (label : string) (text : pystr),
       is_pdf lower (or_empty (UploadFile.filename file)) (UploadFile.content_type file)
         = true ->
       select_and_extract lower sv file = Ok (label, text) ->
       (label = "unknown_pdf"%string <->
          ((exists e, extract_text_with_pdfplumber sv = Raise e) \/
           extract_text_with_pdfplumber sv = Ok []) /\
          (extract_text_with_pdf_ocr sv = Ok [] \/
           exists e, extract_text_with_pdf_ocr sv = Raise e))).
Proof.
  split.
  - intros H.
    specialize (H lower_ascii short_text_no_ocr scan_pdf (str "IMEI")
                  (OtherException "PDFPageCountError")).
    assert (Hsel : select_and_extract lower_ascii short_text_no_ocr scan_pdf
                   = Ok ("pdfplumber"%string, str "IMEI")) by (vm_compute; reflexivity).
    rewrite Hsel in H.
    assert (Hcontra : Ok ("pdfplumber"%string, str "IMEI")
                      = Ok ("unknown_pdf"%string, str "IMEI")).
    { apply H; [vm_compute; reflexivity | vm_compute; reflexivity | discriminate
               | vm_compute; lia | vm_compute; reflexivity]. }
    discriminate Hcontra.
  - intros H.
    specialize (H lower_ascii empty_text_no_ocr scan_pdf "pdfplumber"%string []).
    assert (Hlabel : "pdfplumber"%string = "unknown_pdf"%string); [|discriminate Hlabel].
    apply H; [vm_compute; reflexivity | vm_compute; reflexivity |].
    split; [right; vm_compute; reflexivity|].
    right. exists (OtherException "PDFPageCountError"). vm_compute. reflexivity.
Qed.

Lemma pdf_ocr_fallback_scenario_witness :
  is_pdf lower_ascii (or_empty (UploadFile.filename scan_pdf))
    (UploadFile.content_type scan_pdf) = true /\
  save_upload_to_temp scanned_pdf = Ok (str "/tmp/tmpk3x9", 2048%N) /\
  utf8_encodable (filename_or (UploadFile.filename scan_pdf)
                    (Path_name scanned_pdf (str "/tmp/tmpk3x9"))) = true /\
  extract_text_with_pdfplumber scanned_pdf = Ok [] /\
  extract_text_with_pdf_ocr scanned_pdf = Ok (str "some text with 490154203237518") /\
  exists name,
    extract_imei lower_ascii scanned_pdf scan_pdf =
      Ok {| filename := name;
            method_used := "pdf_ocr";
            imeis := [str "490154203237518"];
            num_chars_extracted := length (str "some text with 490154203237518");
            num_imeis_found := 1 |}.
Proof.
  assert (H1 : is_pdf lower_ascii (or_empty (UploadFile.filename scan_pdf))
                 (UploadFile.content_type scan_pdf) = true) by (vm_compute; reflexivity).
  assert (H2 : save_upload_to_temp scanned_pdf = Ok (str "/tmp/tmpk3x9", 2048%N))
    by reflexivity.
  assert (Hn : utf8_encodable (filename_or (UploadFile.filename scan_pdf)
                 (Path_name scanned_pdf (fst (str "/tmp/tmpk3x9", 2048%N)))) = true)
    by (vm_compute; reflexivity).
  assert (H3 : extract_text_with_pdfplumber scanned_pdf = Ok []) by (vm_compute; reflexivity).
  assert (H4 : extract_text_with_pdf_ocr scanned_pdf
               = Ok (str "some text with 490154203237518")) by (vm_compute; reflexivity).
  split; [exact H1|]. split; [exact H2|]. split; [exact Hn|]. split; [exact H3|].
  split; [exact H4|].
  exact (pdf_ocr_fallback_scenario lower_ascii scanned_pdf scan_pdf _ H1 H2 Hn H3 H4).
Defined.

Lemma image_ocr_failure_is_bad_input_witness :
  is_pdf lower_ascii (or_empty (UploadFile.filename photo_png))
    (UploadFile.content_type photo_png) = false /\
  save_upload_to_temp no_services = Ok (str "/tmp/tmpk3x9", 2048%N) /\
  extract_text_from_image no_services = Raise (OtherException "UnidentifiedImageError") /\
  is_Exception (OtherException "UnidentifiedImageError") = true /\
  extract_imei lower_ascii no_services photo_png =
    Raise (HTTPException 400 "Failed to process image file for OCR").
Proof.
  assert (H1 : is_pdf lower_ascii (or_empty (UploadFile.filename photo_png))
                 (UploadFile.content_type photo_png) = false) by (vm_compute; reflexivity).
  assert (H2 : save_upload_to_temp no_services = Ok (str "/tmp/tmpk3x9", 2048%N))
    by reflexivity.
  assert (H3 : extract_text_from_image no_services
               = Raise (OtherException "UnidentifiedImageError")) by reflexivity.
  assert (H4 : is_Exception (OtherException "UnidentifiedImageError") = true)
    by reflexivity.
  split; [exact H1|]. split; [exact H2|]. split; [exact H3|]. split; [exact H4|].
  exact (image_ocr_failure_is_bad_input lower_ascii no_services photo_png _ _ H1 H2 H3 H4).
Defined.

Lemma image_blank_ocr_is_success_witness :
  is_pdf lower_ascii (or_empty (UploadFile.filename photo_png))
    (UploadFile.content_type photo_png) = false /\
  save_upload_to_temp blank_image = Ok (str "/tmp/tmpk3x9", 2048%N) /\
  utf8_encodable (filename_or (UploadFile.filename photo_png)
                    (Path_name blank_image (str "/tmp/tmpk3x9"))) = true /\
  Image_open blank_image = Ok {| image_to_string := Ok [32%N; 10%N; 12%N] |} /\
  strip [32%N; 10%N; 12%N] = [] /\
  exists name,
    extract_imei lower_ascii blank_image photo_png =
      Ok {| filename := name;
            method_used := "image_ocr";
            imeis := [];
            num_chars_extracted := 0;
            num_imeis_found := 0 |}.
Proof.
  assert (H1 : is_pdf lower_ascii (or_empty (UploadFile.filename photo_png))
                 (UploadFile.content_type photo_png) = false) by (vm_compute; reflexivity).
  assert (H2 : save_upload_to_temp blank_image = Ok (str "/tmp/tmpk3x9", 2048%N))
    by reflexivity.
  assert (Hn : utf8_encodable (filename_or (UploadFile.filename photo_png)
                 (Path_name blank_image (fst (str "/tmp/tmpk3x9", 2048%N)))) = true)
    by (vm_compute; reflexivity).
  assert (H3 : Image_open blank_image = Ok {| image_to_string := Ok [32%N; 10%N; 12%N] |})
    by reflexivity.
  assert (H4 : image_to_string {| image_to_string := Ok [32%N; 10%N; 12%N] |}
               = Ok [32%N; 10%N; 12%N]) by reflexivity.
  assert (H5 : strip [32%N; 10%N; 12%N] = []) by (vm_compute; reflexivity).
  split; [exact H1|]. split; [exact H2|]. split; [exact Hn|]. split; [exact H3|].
  split; [exact H5|].
  exact (image_blank_ocr_is_success lower_ascii blank_image photo_png _ _ _
           H1 H2 Hn H3 H4 H5).
Defined.

(** * Further properties *)

(** ** The checksum as an error-detecting code *)

Lemma decimal_value_range (c : char) (d : Z) :
  Unicode.decimal_value c = Some d -> (0 <= d <= 9)%Z.
Proof.
  unfold Unicode.decimal_value.
  destruct (List.find _ Unicode.decimal_zeros) as [z|] eqn:Hfind; [|discriminate].
  apply find_some in Hfind as [_ Hz].
  apply andb_true_iff in Hz as [Hlo%N.leb_le Hhi%N.leb_le]. intros [= <-]. lia.
Qed.

Lemma digit_char_value (d : Z) :
  (0 <= d <= 9)%Z -> Unicode.decimal_value (digit_char d) = Some d.
Proof.
  intros Hd.
  assert (H : (d = 0 \/ d = 1 \/ d = 2 \/ d = 3 \/ d = 4 \/ d = 5 \/ d = 6 \/ d = 7
               \/ d = 8 \/ d = 9)%Z) by lia.
  repeat (destruct H as [-> | H]; [vm_compute; reflexivity|]). subst d.
  vm_compute. reflexivity.
Qed.

Lemma luhn_sum_from_right_weighted (l : list Z) :
  luhn_sum_from_right l = luhn_weighted_sum false l.
Proof.
  enough (H : luhn_sum_from_right l = luhn_weighted_sum false l /\
              forall a, luhn_sum_from_right (a :: l) = luhn_weighted_sum false (a :: l))
    by apply H.
  induction l as [|b l [IH1 IH2]].
  - split; [reflexivity | intros a; simpl; lia].
  - split; [apply IH2|]. intros a.
    change (luhn_sum_from_right (a :: b :: l))
      with (a + luhn_double b + luhn_sum_from_right l)%Z.
    rewrite IH1. simpl. lia.
Qed.

Lemma luhn_weighted_sum_app (doubled : bool) (l1 l2 : list Z) :
  luhn_weighted_sum doubled (l1 ++ l2) =
    (luhn_weighted_sum doubled l1
     + luhn_weighted_sum (xorb doubled (Nat.odd (length l1))) l2)%Z.
Proof.
  revert doubled. induction l1 as [|d l1 IH]; intros doubled.
  - simpl. rewrite xorb_false_r. reflexivity.
  - cbn [app luhn_weighted_sum length]. rewrite IH, Nat.odd_succ, <- Nat.negb_odd.
    destruct doubled, (Nat.odd (length l1)); simpl; lia.
Qed.

Lemma digit_values_app (s1 s2 : pystr) :
  digit_values (s1 ++ s2) = digit_values s1 ++ digit_values s2.
Proof. apply map_app. Qed.

(** The validator on a string of decimal digits, by the weighted sum. *)
Lemma luhn_checksum_weighted (s : pystr) :
  s <> [] -> forallb isdecimal_char s = true ->
  luhn_checksum_is_valid s =
    Ok (luhn_weighted_sum false (rev (digit_values s)) mod 10 =? 0)%Z.
Proof.
  intros Hne H. rewrite (luhn_checksum_decimal s Hne H).
  pose proof (luhn_loop_reference (digit_values s) 0 0) as E.
  rewrite Nat.add_0_l, Z.add_0_l in E. rewrite E, luhn_sum_from_right_weighted.
  reflexivity.
Qed.

(** The digits around one position: the sum splits into the part of the
    digits after it, the digit itself and the part of the digits before it. *)
Lemma luhn_weighted_sum_rev_around (l1 l2 : list Z) (d : Z) :
  luhn_weighted_sum false (rev (l1 ++ d :: l2)) =
    (luhn_weighted_sum false (rev l2)
     + (if Nat.odd (length l2) then luhn_double d else d)
     + luhn_weighted_sum (negb (Nat.odd (length l2))) (rev l1))%Z.
Proof.
  rewrite rev_app_distr. cbn [rev]. rewrite <- app_assoc, luhn_weighted_sum_app.
  cbn [app luhn_weighted_sum]. rewrite length_rev, xorb_false_l. lia.
Qed.

Lemma luhn_weighted_sum_around (pre post : pystr) (c : char) (d : Z) :
  Unicode.decimal_value c = Some d ->
  luhn_weighted_sum false (rev (digit_values (pre ++ c :: post))) =
    (luhn_weighted_sum false (rev (digit_values post))
     + (if Nat.odd (length post) then luhn_double d else d)
     + luhn_weighted_sum (negb (Nat.odd (length post))) (rev (digit_values pre)))%Z.
Proof.
  intros Hd. rewrite digit_values_app.
  change (digit_values (c :: post))
    with (default 0%Z (Unicode.decimal_value c) :: digit_values post).
  rewrite Hd. cbn [from_option id]. rewrite luhn_weighted_sum_rev_around.
  replace (length (digit_values post)) with (length post); [reflexivity|].
  symmetry. apply length_map.
Qed.

Lemma luhn_double_range (d : Z) : (0 <= d <= 9)%Z -> (0 <= luhn_double d <= 9)%Z.
Proof. intros H. unfold luhn_double. destruct (9 <? d * 2)%Z eqn:E; lia. Qed.

Lemma luhn_double_injective (d d' : Z) :
  (0 <= d <= 9)%Z -> (0 <= d' <= 9)%Z -> luhn_double d = luhn_double d' -> d = d'.
Proof.
  intros H H'. unfold luhn_double.
  destruct (9 <? d * 2)%Z eqn:E; destruct (9 <? d' * 2)%Z eqn:E'; lia.
Qed.

Lemma forallb_app_cons (f : char -> bool) (pre post : pystr) (c : char) :
  forallb f (pre ++ c :: post) = forallb f pre && (f c && forallb f post).
Proof. rewrite forallb_app. reflexivity. Qed.

(** X1: a single wrong digit is always detected.  In a valid string of
    decimal digits, a digit replaced by a digit of another value gives a
    string the validator rejects. *)
Theorem luhn_detects_single_digit_error (pre post : pystr) (c c' : char) :
  forallb isdecimal_char (pre ++ c :: post) = true ->
  isdecimal_char c' = true ->
  Unicode.decimal_value c <> Unicode.decimal_value c' ->
  luhn_checksum_is_valid (pre ++ c :: post) = Ok true ->
  luhn_checksum_is_valid (pre ++ c' :: post) = Ok false.
Proof.
  intros Hall Hc' Hne Hvalid.
  rewrite forallb_app_cons in Hall.
  apply andb_true_iff in Hall as [Hpre [Hc Hpost]%andb_true_iff].
  destruct (isdecimal_char_value c Hc) as [d Hd].
  destruct (isdecimal_char_value c' Hc') as [d' Hd'].
  pose proof (decimal_value_range c d Hd) as Hr.
  pose proof (decimal_value_range c' d' Hd') as Hr'.
  assert (Hdd : d <> d') by (intros ->; apply Hne; rewrite Hd, Hd'; reflexivity).
  rewrite luhn_checksum_weighted in Hvalid;
    [|intros E; apply app_eq_nil in E as [_ E]; discriminate E
     |rewrite forallb_app_cons, Hpre, Hc, Hpost; reflexivity].
  rewrite luhn_checksum_weighted;
    [|intros E; apply app_eq_nil in E as [_ E]; discriminate E
     |rewrite forallb_app_cons, Hpre, Hc', Hpost; reflexivity].
  rewrite (luhn_weighted_sum_around pre post c d Hd) in Hvalid.
  rewrite (luhn_weighted_sum_around pre post c' d' Hd').
  injection Hvalid as Hvalid. apply Z.eqb_eq in Hvalid.
  f_equal. apply Z.eqb_neq.
  pose proof (luhn_double_range d Hr). pose proof (luhn_double_range d' Hr').
  pose proof (luhn_double_injective d d' Hr Hr').
  destruct (Nat.odd (length post)); intros Hvalid';
    apply Z.mod_divide in Hvalid; try lia; apply Z.mod_divide in Hvalid'; try lia;
    destruct Hvalid as [k Hk]; destruct Hvalid' as [k' Hk']; lia.
Qed.

Lemma luhn_detects_single_digit_error_witness :
  forallb isdecimal_char (str "49015420" ++ 51%N :: str "237518") = true /\
  isdecimal_char 56%N = true /\
  Unicode.decimal_value 51%N <> Unicode.decimal_value 56%N /\
  luhn_checksum_is_valid (str "49015420" ++ 51%N :: str "237518") = Ok true /\
  luhn_checksum_is_valid (str "49015420" ++ 56%N :: str "237518") = Ok false.
Proof.
  assert (H1 : forallb isdecimal_char (str "49015420" ++ 51%N :: str "237518") = true)
    by (vm_compute; reflexivity).
  assert (H2 : isdecimal_char 56%N = true) by (vm_compute; reflexivity).
  assert (H3 : Unicode.decimal_value 51%N <> Unicode.decimal_value 56%N)
    by (vm_compute; discriminate).
  assert (H4 : luhn_checksum_is_valid (str "49015420" ++ 51%N :: str "237518") = Ok true)
    by (vm_compute; reflexivity).
  split; [exact H1|]. split; [exact H2|]. split; [exact H3|]. split; [exact H4|].
  exact (luhn_detects_single_digit_error _ _ _ _ H1 H2 H3 H4).
Defined.

Lemma luhn_checksum_snoc (s : pystr) (d : Z) :
  forallb isdecimal_char s = true -> (0 <= d <= 9)%Z ->
  luhn_checksum_is_valid (s ++ [digit_char d]) =
    Ok ((d + luhn_weighted_sum true (rev (digit_values s))) mod 10 =? 0)%Z.
Proof.
  intros Hs Hd. pose proof (digit_char_value d Hd) as Hv.
  rewrite luhn_checksum_weighted.
  - rewrite (luhn_weighted_sum_around s [] (digit_char d) d Hv). simpl. reflexivity.
  - intros E. apply app_eq_nil in E as [_ E]. discriminate E.
  - rewrite forallb_app_cons, Hs. unfold isdecimal_char. rewrite Hv. reflexivity.
Qed.

(** X2: every string of decimal digits, the empty one too, has exactly one
    check digit: one digit from 0 to 9 that, put at its end, gives a string the
    validator accepts. *)
Theorem luhn_check_digit_exists_unique (s : pystr) :
  forallb isdecimal_char s = true ->
  exists d, (0 <= d <= 9)%Z /\
    forall d', (0 <= d' <= 9)%Z ->
      (luhn_checksum_is_valid (s ++ [digit_char d']) = Ok true <-> d' = d).
Proof.
  intros Hs. set (r := luhn_weighted_sum true (rev (digit_values s))).
  exists ((- r) mod 10)%Z.
  assert (Hd : (0 <= (- r) mod 10 <= 9)%Z).
  { pose proof (Z.mod_pos_bound (- r) 10 ltac:(lia)). lia. }
  split; [exact Hd|]. intros d' Hd'.
  rewrite (luhn_checksum_snoc s d' Hs Hd'). fold r. split.
  - intros [= H]. apply Z.eqb_eq in H. revert H Hd. Z.div_mod_to_equations. lia.
  - intros ->. f_equal. apply Z.eqb_eq. revert Hd. Z.div_mod_to_equations. lia.
Qed.

Lemma luhn_check_digit_exists_unique_witness :
  forallb isdecimal_char (str "49015420323751") = true /\
  exists d, (0 <= d <= 9)%Z /\
    forall d', (0 <= d' <= 9)%Z ->
      (luhn_checksum_is_valid (str "49015420323751" ++ [digit_char d']) = Ok true <-> d' = d).
Proof.
  assert (H : forallb isdecimal_char (str "49015420323751") = true)
    by (vm_compute; reflexivity).
  split; [exact H | exact (luhn_check_digit_exists_unique _ H)].
Defined.

Lemma for_each_int_cases (s : pystr) :
  (forallb isdecimal_char s = true /\ for_each int s = Ok (digit_values s)) \/
  (forallb isdecimal_char s = false /\ for_each int s = Raise ValueError).
Proof.
  induction s as [|c s IH]; [left; split; reflexivity|].
  cbn [forallb for_each].
  destruct (Unicode.decimal_value c) as [d|] eqn:Hd.
  - assert (Hi : int c = Ok d) by (unfold int; rewrite Hd; reflexivity).
    assert (Hc : isdecimal_char c = true) by (unfold isdecimal_char; rewrite Hd; reflexivity).
    rewrite Hi, Hc, bind_Ok. destruct IH as [[Hs ->] | [Hs ->]]; rewrite Hs.
    + left. split; [reflexivity|]. rewrite bind_Ok. cbn [digit_values map].
      rewrite Hd. reflexivity.
    + right. split; reflexivity.
  - assert (Hi : int c = Raise ValueError) by (unfold int; rewrite Hd; reflexivity).
    assert (Hc : isdecimal_char c = false) by (unfold isdecimal_char; rewrite Hd; reflexivity).
    rewrite Hi, Hc. right. split; reflexivity.
Qed.

(** X3: the validator raises in one case only, with [ValueError]: every
    character passes [isdigit] and one of them has no decimal value.  On any
    other string it returns. *)
Theorem luhn_raises_iff (s : pystr) (e : exn) :
  luhn_checksum_is_valid s = Raise e <->
  e = ValueError /\ isdigit s = true /\ exists c, c ∈ s /\ isdecimal_char c = false.
Proof.
  unfold luhn_checksum_is_valid. destruct (isdigit s) eqn:Hdigit; cbn [negb].
  - destruct (for_each_int_cases s) as [[Hs ->] | [Hs ->]].
    + rewrite bind_Ok. split; [discriminate|].
      intros (_ & _ & c & Hc & Hd). rewrite (forallb_elem _ _ _ Hs Hc) in Hd. discriminate.
    + rewrite bind_Raise. split.
      * intros [= <-]. repeat split. apply forallb_false_elem, Hs.
      * intros (-> & _). reflexivity.
  - split; [discriminate | intros (_ & H & _); discriminate H].
Qed.

(** X4: two neighbouring digits exchanged.  In a valid string of decimal
    digits, exchanging two neighbours of different values gives a string the
    validator rejects, except when the two digits are 0 and 9: that exchange
    is never noticed. *)
Theorem luhn_adjacent_transposition (pre post : pystr) (a b : char) (da db : Z) :
  forallb isdecimal_char (pre ++ a :: b :: post) = true ->
  Unicode.decimal_value a = Some da ->
  Unicode.decimal_value b = Some db ->
  da <> db ->
  luhn_checksum_is_valid (pre ++ a :: b :: post) = Ok true ->
  luhn_checksum_is_valid (pre ++ b :: a :: post) =
    Ok (bool_decide ((da = 0 /\ db = 9) \/ (da = 9 /\ db = 0))%Z).
Proof.
  intros Hall Ha Hb Hne Hvalid.
  rewrite forallb_app_cons in Hall.
  apply andb_true_iff in Hall as [Hpre [Hca Hrest]%andb_true_iff].
  cbn [forallb] in Hrest. apply andb_true_iff in Hrest as [Hcb Hpost].
  pose proof (decimal_value_range a da Ha) as Hra.
  pose proof (decimal_value_range b db Hb) as Hrb.
  rewrite luhn_checksum_weighted in Hvalid;
    [|intros E; apply app_eq_nil in E as [_ E]; discriminate E
     |rewrite forallb_app_cons; cbn [forallb]; rewrite Hpre, Hca, Hcb, Hpost; reflexivity].
  rewrite luhn_checksum_weighted;
    [|intros E; apply app_eq_nil in E as [_ E]; discriminate E
     |rewrite forallb_app_cons; cbn [forallb]; rewrite Hpre, Hca, Hcb, Hpost; reflexivity].
  pose proof (luhn_weighted_sum_around [] post a da Ha) as Ea.
  pose proof (luhn_weighted_sum_around [] post b db Hb) as Eb.
  cbn [app] in Ea, Eb.
  rewrite (luhn_weighted_sum_around pre (b :: post) a da Ha), Eb in Hvalid.
  rewrite (luhn_weighted_sum_around pre (a :: post) b db Hb), Ea.
  clear Ea Eb.
  cbn [length rev digit_values map luhn_weighted_sum] in *.
  rewrite Nat.odd_succ, <- Nat.negb_odd in *.
  injection Hvalid as Hvalid. apply Z.eqb_eq in Hvalid. f_equal.
  set (w := luhn_weighted_sum false (rev (digit_values post))) in *.
  set (r := luhn_weighted_sum (negb (negb (Nat.odd (length post))))
              (rev (digit_values pre))) in *.
  clearbody w r. unfold luhn_double in *.
  case_bool_decide as Hnine.
  - apply Z.eqb_eq. revert Hvalid.
    destruct (Nat.odd (length post)); cbn [negb];
      destruct (9 <? da * 2)%Z eqn:Ea; destruct (9 <? db * 2)%Z eqn:Eb;
      apply Z.ltb_lt in Ea || apply Z.ltb_ge in Ea;
      apply Z.ltb_lt in Eb || apply Z.ltb_ge in Eb;
      Z.div_mod_to_equations; lia.
  - apply Z.eqb_neq. intros Hvalid'. apply Hnine. revert Hvalid Hvalid'.
    destruct (Nat.odd (length post)); cbn [negb];
      destruct (9 <? da * 2)%Z eqn:Ea; destruct (9 <? db * 2)%Z eqn:Eb;
      apply Z.ltb_lt in Ea || apply Z.ltb_ge in Ea;
      apply Z.ltb_lt in Eb || apply Z.ltb_ge in Eb;
      Z.div_mod_to_equations; lia.
Qed.

Lemma luhn_adjacent_transposition_witness :
  forallb isdecimal_char (str "4" ++ 57%N :: 48%N :: str "154203237518") = true /\
  Unicode.decimal_value 57%N = Some 9%Z /\
  Unicode.decimal_value 48%N = Some 0%Z /\
  9%Z <> 0%Z /\
  luhn_checksum_is_valid (str "4" ++ 57%N :: 48%N :: str "154203237518") = Ok true /\
  luhn_checksum_is_valid (str "4" ++ 48%N :: 57%N :: str "154203237518") = Ok true.
Proof.
  assert (H1 : forallb isdecimal_char (str "4" ++ 57%N :: 48%N :: str "154203237518") = true)
    by (vm_compute; reflexivity).
  assert (H2 : Unicode.decimal_value 57%N = Some 9%Z) by (vm_compute; reflexivity).
  assert (H3 : Unicode.decimal_value 48%N = Some 0%Z) by (vm_compute; reflexivity).
  assert (H4 : 9%Z <> 0%Z) by lia.
  assert (H5 : luhn_checksum_is_valid (str "4" ++ 57%N :: 48%N :: str "154203237518")
               = Ok true) by (vm_compute; reflexivity).
  split; [exact H1|]. split; [exact H2|]. split; [exact H3|]. split; [exact H4|].
  split; [exact H5|].
  exact (luhn_adjacent_transposition _ _ _ _ _ _ H1 H2 H3 H4 H5).
Defined.

(** ** The scanner: what is reported and what is not *)

Lemma match_digits_complete (c post : pystr) :
  forallb isdecimal_char c = true ->
  match_digits (length c) (c ++ post) = Some (c, post).
Proof.
  induction c as [|x c IH]; [reflexivity|].
  cbn [forallb length app match_digits]. intros [Hx Hc]%andb_true_iff.
  rewrite Hx, (IH Hc). reflexivity.
Qed.

Lemma match_here_IMEI_complete (prev : option char) (c post : pystr) :
  length c = 15 -> forallb isdecimal_char c = true ->
  is_word_at prev = false -> is_word_at (head post) = false ->
  match_here IMEI_REGEX prev (c ++ post) = Some (c, post).
Proof.
  intros Hlen Hall Hprev Hnext. unfold IMEI_REGEX. cbn [match_here].
  rewrite <- Hlen, (match_digits_complete c post Hall).
  destruct c as [|x c]; [discriminate Hlen|].
  assert (Hx : is_word x = true).
  { apply isdecimal_char_is_word, (forallb_elem _ _ _ Hall), list_elem_of_here. }
  unfold at_boundary at 1. cbn [app head is_word_at]. rewrite Hprev, Hx. cbn [xorb].
  destruct (last (x :: c)) as [y|] eqn:Hlast.
  - assert (Hy : is_word y = true).
    { apply isdecimal_char_is_word, (forallb_elem _ _ _ Hall).
      apply last_Some in Hlast as [l' ->]. apply elem_of_app. right. apply list_elem_of_here. }
    unfold at_boundary, prev_after. rewrite Hlast. cbn [is_word_at].
    rewrite Hy, Hnext. cbn [xorb]. rewrite app_nil_r. reflexivity.
  - apply last_None in Hlast. discriminate Hlast.
Qed.

(** The search does not pass over a match: while characters of the last match
    are skipped, the character before the position is a digit, so no match
    can start there. *)
Lemma scan_complete (c post a pre : pystr) (skip : nat) :
  length c = 15 -> forallb isdecimal_char c = true ->
  is_word_at (head post) = false ->
  forallb isdecimal_char (take skip (a ++ c ++ post)) = true ->
  (0 < skip -> is_word_at (last pre) = true) ->
  is_word_at (last (pre ++ a)) = false ->
  (length pre + length a, c) ∈
    scan IMEI_REGEX (last pre) (length pre) (a ++ c ++ post) skip.
Proof.
  intros Hlen Hall Hnext. revert pre skip.
  induction a as [|x a IH]; intros pre skip Hskip Hprev Hbefore.
  - rewrite app_nil_r in Hbefore. rewrite Nat.add_0_r. cbn [app].
    destruct skip as [|k]; [|rewrite Hprev in Hbefore by lia; discriminate].
    destruct c as [|y c]; [discriminate Hlen|]. cbn [app scan].
    change (y :: c ++ post) with ((y :: c) ++ post).
    rewrite (match_here_IMEI_complete _ _ _ Hlen Hall Hbefore Hnext).
    apply list_elem_of_here.
  - assert (Hnext_step : forall k,
      forallb isdecimal_char (take k (a ++ c ++ post)) = true ->
      (0 < k -> is_word x = true) ->
      (length pre + length (x :: a), c) ∈
        scan IMEI_REGEX (Some x) (S (length pre)) (a ++ c ++ post) k).
    { intros k Hk Hx. specialize (IH (pre ++ [x]) k).
      rewrite last_snoc, length_app, <- app_assoc in IH. cbn [length app] in IH.
      replace (length pre + 1 + length a) with (length pre + S (length a)) in IH by lia.
      replace (length pre + 1) with (S (length pre)) in IH by lia.
      apply IH; assumption. }
    cbn [app scan]. destruct skip as [|k].
    + destruct (match_here IMEI_REGEX (last pre) (x :: a ++ c ++ post))
        as [[m r]|] eqn:Hm.
      * apply list_elem_of_further.
        destruct (match_here_IMEI _ _ _ _ Hm) as (Hsplit & Hmlen & Hmall & _ & _).
        destruct m as [|y m]; [discriminate Hmlen|].
        cbn [app] in Hsplit. injection Hsplit as -> Hsplit.
        cbn [forallb] in Hmall. apply andb_true_iff in Hmall as [Hy Hmall].
        apply Hnext_step.
        -- rewrite Hsplit. cbn [length Nat.pred]. rewrite take_app_length. exact Hmall.
        -- intros _. apply isdecimal_char_is_word, Hy.
      * apply Hnext_step; [reflexivity | lia].
    + cbn [take app forallb] in Hskip. apply andb_true_iff in Hskip as [Hx Hskip].
      apply Hnext_step; [exact Hskip | intros _; apply isdecimal_char_is_word, Hx].
Qed.

(** Matches do not overlap: each one takes fifteen characters of the text. *)
Lemma scan_length (s : pystr) (prev : option char) (pos skip : nat) :
  15 * length (scan IMEI_REGEX prev pos s skip) <= length s - skip.
Proof.
  revert prev pos skip. induction s as [|x s IH]; intros prev pos skip.
  - destruct skip as [|k]; cbn [scan]; [|simpl; lia].
    destruct (match_here IMEI_REGEX prev []) as [[m r]|] eqn:Hm; [|simpl; lia].
    destruct (match_here_IMEI _ _ _ _ Hm) as (Hsplit & Hmlen & _).
    symmetry in Hsplit. apply app_eq_nil in Hsplit as [-> _]. discriminate Hmlen.
  - destruct skip as [|k]; cbn [scan].
    + destruct (match_here IMEI_REGEX prev (x :: s)) as [[m r]|] eqn:Hm.
      * destruct (match_here_IMEI _ _ _ _ Hm) as (Hsplit & Hmlen & _).
        rewrite Hmlen. cbn [length Nat.pred].
        apply (f_equal length) in Hsplit. rewrite length_app in Hsplit.
        cbn [length] in Hsplit.
        specialize (IH (Some x) (S pos) 14). lia.
      * specialize (IH (Some x) (S pos) 0). cbn [length]. lia.
    + specialize (IH (Some x) (S pos) k). cbn [length]. lia.
Qed.

Lemma candidates_loop_length (candidates valid : list pystr) (seen : gset pystr)
  (l : list pystr) :
  candidates_loop candidates valid seen = Ok l ->
  length l <= length valid + length candidates.
Proof.
  revert valid seen. induction candidates as [|c candidates IH]; intros valid seen.
  - cbn [candidates_loop]. intros [= <-]. simpl. lia.
  - cbn [candidates_loop length]. destruct (decide (c ∈ seen)).
    + intros H%IH. lia.
    + destruct (luhn_checksum_is_valid c) as [[|] | e].
      * rewrite bind_Ok. intros H%IH. rewrite length_app in H. simpl in H. lia.
      * rewrite bind_Ok. intros H%IH. lia.
      * rewrite bind_Raise. discriminate.
Qed.

(** X5: what the scanner reports is in the text.  Every identifier of the
    output has fifteen decimal digits, passes the checksum and stands in the
    text with no word character before it and none after it. *)
Theorem extract_imeis_sound (text : pystr) (l : list pystr) (x : pystr) :
  extract_imeis_from_text text = Ok l -> x ∈ l ->
  length x = 15 /\ forallb isdecimal_char x = true /\
  luhn_checksum_is_valid x = Ok true /\
  exists pre post,
    text = pre ++ x ++ post /\
    is_word_at (last pre) = false /\ is_word_at (head post) = false.
Proof.
  intros Hres Hx. destruct (extract_imeis_spec text) as (l' & Hres' & _ & Hmem & _).
  rewrite Hres in Hres'. injection Hres' as <-.
  apply Hmem in Hx as [[p Hp] Hvalid].
  apply finditer_match_at in Hp as (pre & post & Htext & _ & Hlen & Hall & Hb & Ha).
  repeat split; try assumption. exists pre, post. repeat split; assumption.
Qed.

Lemma extract_imeis_sound_witness :
  extract_imeis_from_text (str "IMEI: 490154203237518.") = Ok [str "490154203237518"] /\
  str "490154203237518" ∈ [str "490154203237518"] /\
  length (str "490154203237518") = 15 /\
  forallb isdecimal_char (str "490154203237518") = true /\
  luhn_checksum_is_valid (str "490154203237518") = Ok true /\
  exists pre post,
    str "IMEI: 490154203237518." = pre ++ str "490154203237518" ++ post /\
    is_word_at (last pre) = false /\ is_word_at (head post) = false.
Proof.
  assert (H1 : extract_imeis_from_text (str "IMEI: 490154203237518.")
               = Ok [str "490154203237518"]) by (vm_compute; reflexivity).
  assert (H2 : str "490154203237518" ∈ [str "490154203237518"]) by apply list_elem_of_here.
  split; [exact H1|]. split; [exact H2|].
  exact (extract_imeis_sound _ _ _ H1 H2).
Defined.

(** X6: nothing valid is missed.  Fifteen decimal digits that pass the
    checksum and stand in the text with no word character before them and
    none after them are in the output. *)
Theorem extract_imeis_complete (pre c post : pystr) :
  length c = 15 -> forallb isdecimal_char c = true ->
  is_word_at (last pre) = false -> is_word_at (head post) = false ->
  luhn_checksum_is_valid c = Ok true ->
  exists l, extract_imeis_from_text (pre ++ c ++ post) = Ok l /\ c ∈ l.
Proof.
  intros Hlen Hall Hbefore Hafter Hvalid.
  destruct (extract_imeis_spec (pre ++ c ++ post)) as (l & Hres & _ & Hmem & _).
  exists l. split; [exact Hres|]. apply Hmem. split; [|exact Hvalid].
  exists (length pre). unfold finditer.
  apply (scan_complete c post pre [] 0 Hlen Hall Hafter); [reflexivity | lia | exact Hbefore].
Qed.

Lemma extract_imeis_complete_witness :
  length (str "490154203237518") = 15 /\
  forallb isdecimal_char (str "490154203237518") = true /\
  is_word_at (last (str "IMEI: ")) = false /\
  is_word_at (head (str ".")) = false /\
  luhn_checksum_is_valid (str "490154203237518") = Ok true /\
  exists l,
    extract_imeis_from_text (str "IMEI: " ++ str "490154203237518" ++ str ".") = Ok l /\
    str "490154203237518" ∈ l.
Proof.
  assert (H1 : length (str "490154203237518") = 15) by reflexivity.
  assert (H2 : forallb isdecimal_char (str "490154203237518") = true)
    by (vm_compute; reflexivity).
  assert (H3 : is_word_at (last (str "IMEI: ")) = false) by (vm_compute; reflexivity).
  assert (H4 : is_word_at (head (str ".")) = false) by (vm_compute; reflexivity).
  assert (H5 : luhn_checksum_is_valid (str "490154203237518") = Ok true)
    by (vm_compute; reflexivity).
  split; [exact H1|]. split; [exact H2|]. split; [exact H3|]. split; [exact H4|].
  split; [exact H5|].
  exact (extract_imeis_complete _ _ _ H1 H2 H3 H4 H5).
Defined.

(** X7: the matches do not overlap, so a text of [n] characters gives at most
    [n / 15] identifiers. *)
Theorem extract_imeis_count_bound (text : pystr) (l : list pystr) :
  extract_imeis_from_text text = Ok l -> 15 * length l <= length text.
Proof.
  destruct text as [|x text]; [intros [= <-]; simpl; lia|].
  unfold extract_imeis_from_text, findall, finditer. intros H%candidates_loop_length.
  rewrite length_map in H. cbn [length Nat.add] in H.
  pose proof (scan_length (x :: text) None 0 0). lia.
Qed.

Lemma extract_imeis_count_bound_witness :
  extract_imeis_from_text (str "490154203237518 356938035643809") =
    Ok [str "490154203237518"; str "356938035643809"] /\
  15 * length [str "490154203237518"; str "356938035643809"] <=
    length (str "490154203237518 356938035643809").
Proof.
  assert (H : extract_imeis_from_text (str "490154203237518 356938035643809") =
              Ok [str "490154203237518"; str "356938035643809"])
    by (vm_compute; reflexivity).
  split; [exact H | exact (extract_imeis_count_bound _ _ H)].
Defined.

(** ** Trimming *)

Lemma last_rev_head (s : pystr) : last (rev s) = head s.
Proof. destruct s as [|c s]; [reflexivity|]. cbn [rev head]. apply last_snoc. Qed.

Lemma forallb_rev (f : char -> bool) (s : pystr) : forallb f (rev s) = forallb f s.
Proof.
  induction s as [|c s IH]; [reflexivity|].
  cbn [rev forallb]. rewrite forallb_app, IH. cbn [forallb].
  rewrite andb_true_r. apply andb_comm.
Qed.

Lemma lstrip_spec (s : pystr) :
  exists ws,
    s = ws ++ lstrip s /\ forallb isspace_char ws = true /\
    (forall c, head (lstrip s) = Some c -> isspace_char c = false).
Proof.
  induction s as [|c s (ws & Hs & Hws & Hhead)].
  - exists []. repeat split. discriminate.
  - cbn [lstrip]. destruct (isspace_char c) eqn:Hc.
    + exists (c :: ws). cbn [app forallb]. rewrite Hc, Hws, <- Hs. repeat split. exact Hhead.
    + exists []. repeat split. intros c' [= <-]. exact Hc.
Qed.

Lemma rstrip_spec (s : pystr) :
  exists ws,
    s = rstrip s ++ ws /\ forallb isspace_char ws = true /\
    (forall c, last (rstrip s) = Some c -> isspace_char c = false).
Proof.
  destruct (lstrip_spec (rev s)) as (ws & Hs & Hws & Hhead).
  exists (rev ws). unfold rstrip. repeat split.
  - rewrite <- rev_app_distr, <- Hs, rev_involutive. reflexivity.
  - rewrite forallb_rev. exact Hws.
  - intros c. rewrite last_rev_head. apply Hhead.
Qed.

(** [strip] takes white space away at the two ends and nothing else, and
    leaves none there. *)
Lemma strip_spec (s : pystr) :
  exists l r,
    s = l ++ strip s ++ r /\
    forallb isspace_char l = true /\ forallb isspace_char r = true /\
    (forall c, head (strip s) = Some c -> isspace_char c = false) /\
    (forall c, last (strip s) = Some c -> isspace_char c = false).
Proof.
  destruct (lstrip_spec s) as (l & Hl & Hlws & Hhead).
  destruct (rstrip_spec (lstrip s)) as (r & Hr & Hrws & Hlast).
  exists l, r. unfold strip. repeat split; try assumption.
  - rewrite <- Hr. exact Hl.
  - intros c Hc. apply Hhead. rewrite Hr.
    destruct (rstrip (lstrip s)); [discriminate Hc | exact Hc].
Qed.

(** A text is trimmed to the empty string exactly when it holds nothing but
    white space. *)
Lemma strip_empty_iff (s : pystr) :
  strip s = [] <-> forallb isspace_char s = true.
Proof.
  destruct (strip_spec s) as (l & r & Hs & Hl & Hr & Hhead & _). split.
  - intros He. rewrite He in Hs. cbn [app] in Hs.
    rewrite Hs, forallb_app, Hl, Hr. reflexivity.
  - intros Hall. destruct (strip s) as [|c t]; [reflexivity|]. exfalso.
    rewrite Hs, forallb_app in Hall. cbn [app forallb] in Hall.
    rewrite (Hhead c eq_refl), andb_false_r in Hall. discriminate Hall.
Qed.

(** ** The text helpers *)

Lemma for_each_raise_iff {A B : Type} (f : A -> result B) (l : list A) :
  (exists e, for_each f l = Raise e) <-> exists a, a ∈ l /\ exists e, f a = Raise e.
Proof.
  induction l as [|a l IH]; cbn [for_each].
  - split; [intros [e H]; discriminate H | intros (a & Ha & _); inversion Ha].
  - destruct (f a) as [b | e] eqn:Hfa.
    + rewrite bind_Ok. destruct (for_each f l) as [bs | e'].
      * rewrite bind_Ok. split; [intros [e H]; discriminate H|].
        intros (a' & [-> | Ha']%elem_of_cons & e & He).
        -- rewrite Hfa in He. discriminate He.
        -- destruct (proj2 IH) as [e0 He0]; [eauto | discriminate He0].
      * rewrite bind_Raise. split; [|eauto].
        intros _. destruct (proj1 IH) as (a' & Ha' & He'); [eauto|].
        exists a'. split; [apply list_elem_of_further, Ha' | exact He'].
    + rewrite bind_Raise. split; [|eauto].
      intros _. exists a. split; [apply list_elem_of_here | eauto].
Qed.

(** The loop over the pages, by the list of the page texts. *)
Lemma pages_loop_for_each (pages : list page) (parts : list pystr) :
  pages_loop pages parts =
    (texts ← for_each page_text pages; Ok (parts ++ List.filter truthy texts)).
Proof.
  revert parts. induction pages as [|p pages IH]; intros parts.
  - cbn [pages_loop for_each]. rewrite bind_Ok. cbn [List.filter].
    rewrite app_nil_r. reflexivity.
  - cbn [pages_loop for_each]. destruct (page_text p) as [text | e].
    + rewrite !bind_Ok, IH. destruct (for_each page_text pages) as [texts | e].
      * rewrite !bind_Ok. cbn [List.filter].
        destruct (truthy text); [rewrite <- app_assoc|]; reflexivity.
      * rewrite !bind_Raise. reflexivity.
    + rewrite !bind_Raise. reflexivity.
Qed.

Lemma images_loop_for_each (images : list image) (parts : list pystr) :
  images_loop images parts =
    (texts ← for_each image_to_string images; Ok (parts ++ List.filter truthy texts)).
Proof.
  revert parts. induction images as [|img images IH]; intros parts.
  - cbn [images_loop for_each]. rewrite bind_Ok. cbn [List.filter].
    rewrite app_nil_r. reflexivity.
  - cbn [images_loop for_each]. destruct (image_to_string img) as [text | e].
    + rewrite !bind_Ok, IH. destruct (for_each image_to_string images) as [texts | e].
      * rewrite !bind_Ok. cbn [List.filter].
        destruct (truthy text); [rewrite <- app_assoc|]; reflexivity.
      * rewrite !bind_Raise. reflexivity.
    + rewrite !bind_Raise. reflexivity.
Qed.

Lemma page_text_raise_iff (p : page) :
  (exists e, page_text p = Raise e) <->
  exists e1, extract_text_tolerance p = Raise e1 /\
             (is_Exception e1 = false \/ exists e2, extract_text p = Raise e2).
Proof.
  unfold page_text. destruct (extract_text_tolerance p) as [t | e1].
  - rewrite bind_Ok. cbn [except_Exception].
    split; [intros [e H]; discriminate H | intros (e1 & H & _); discriminate H].
  - rewrite bind_Raise. cbn [except_Exception]. destruct (is_Exception e1) eqn:He1.
    + destruct (extract_text p) as [t | e2].
      * rewrite bind_Ok. split; [intros [e H]; discriminate H|].
        intros (e & [= <-] & [H | [e2 H]]); [rewrite He1 in H|]; discriminate H.
      * rewrite bind_Raise. split; [|eauto]. intros _. exists e1. split; [reflexivity|].
        right. eauto.
    + split; [|eauto]. intros _. exists e1. split; [reflexivity | left; exact He1].
Qed.

(** X8: the text-layer helper raises in these cases only: the PDF cannot be
    opened, or on some page the call with tolerances raises and either its
    exception lies outside [Exception], which the [except] clause does not
    catch, or the plain call raises too.  One such page is enough to lose the
    text of all the pages. *)
Theorem extract_text_with_pdfplumber_raises_iff (sv : services) :
  (exists e, extract_text_with_pdfplumber sv = Raise e) <->
  (exists e, pdfplumber_open sv = Raise e) \/
  (exists pages p e1,
     pdfplumber_open sv = Ok pages /\ p ∈ pages /\
     extract_text_tolerance p = Raise e1 /\
     (is_Exception e1 = false \/ exists e2, extract_text p = Raise e2)).
Proof.
  unfold extract_text_with_pdfplumber. destruct (pdfplumber_open sv) as [pages | e0].
  - rewrite bind_Ok, pages_loop_for_each.
    pose proof (for_each_raise_iff page_text pages) as Hiff.
    destruct (for_each page_text pages) as [texts | e].
    + rewrite !bind_Ok. split; [intros [e H]; discriminate H|].
      intros [[e H] | (pages' & p & e1 & [= <-] & Hp & Hraise)]; [discriminate H|].
      destruct (proj2 Hiff) as [e He]; [|discriminate He].
      exists p. split; [exact Hp | apply page_text_raise_iff; eauto].
    + rewrite !bind_Raise. split; [|eauto]. intros _. right.
      destruct (proj1 Hiff) as (p & Hp & Hraise); [eauto|].
      apply page_text_raise_iff in Hraise as (e1 & He1 & Hcase).
      exists pages, p, e1. repeat split; assumption.
  - rewrite bind_Raise. split; eauto.
Qed.

Lemma page_yields_text (p : page) (t : option pystr) :
  page_yields p t -> page_text p = Ok (or_empty t).
Proof.
  unfold page_text. intros [H | (e & H & He & Hplain)]; rewrite H.
  - rewrite bind_Ok. reflexivity.
  - rewrite bind_Raise. cbn [except_Exception]. rewrite He, Hplain, bind_Ok. reflexivity.
Qed.

(** X9: when the PDF opens and every page yields a text or [None], from the
    call with tolerances or, when that one raises an exception of the class
    [Exception], from the plain call, the text-layer helper returns the texts
    that are not empty, [None] counting as empty, in the order of the pages,
    joined by line feeds and trimmed. *)
Theorem extract_text_with_pdfplumber_joins (sv : services) (pages : list page)
  (texts : list (option pystr)) :
  pdfplumber_open sv = Ok pages ->
  Forall2 page_yields pages texts ->
  extract_text_with_pdfplumber sv =
    Ok (strip (join newline (List.filter truthy (map or_empty texts)))).
Proof.
  intros Hopen Hyields. unfold extract_text_with_pdfplumber.
  assert (Htexts : for_each page_text pages = Ok (map or_empty texts)).
  { clear Hopen. induction Hyields as [|p t pages texts Hp _ IH]; [reflexivity|].
    cbn [for_each map]. rewrite (page_yields_text p t Hp), bind_Ok, IH, bind_Ok.
    reflexivity. }
  rewrite Hopen, bind_Ok, pages_loop_for_each, Htexts, !bind_Ok. reflexivity.
Qed.

(** X10: the OCR helper of the PDF path raises exactly when the PDF cannot be
    rasterized or the OCR of some page raises; otherwise it returns the
    non-empty page texts in order, joined by line feeds and trimmed. *)
Theorem extract_text_with_pdf_ocr_outcome (sv : services) :
  ((exists e, extract_text_with_pdf_ocr sv = Raise e) <->
   (exists e, convert_from_path sv = Raise e) \/
   (exists images img,
      convert_from_path sv = Ok images /\ img ∈ images /\
      exists e, image_to_string img = Raise e)) /\
  (forall images texts,
     convert_from_path sv = Ok images ->
     for_each image_to_string images = Ok texts ->
     extract_text_with_pdf_ocr sv = Ok (strip (join newline (List.filter truthy texts)))).
Proof.
  unfold extract_text_with_pdf_ocr. split.
  - destruct (convert_from_path sv) as [images | e0].
    + rewrite bind_Ok, images_loop_for_each.
      pose proof (for_each_raise_iff image_to_string images) as Hiff.
      destruct (for_each image_to_string images) as [texts | e].
      * rewrite !bind_Ok. split; [intros [e H]; discriminate H|].
        intros [[e H] | (images' & img & [= <-] & Himg & Hraise)]; [discriminate H|].
        destruct (proj2 Hiff) as [e He]; [eauto | discriminate He].
      * rewrite !bind_Raise. split; [|eauto]. intros _. right.
        destruct (proj1 Hiff) as (img & Himg & Hraise); [eauto|].
        exists images, img. split; [reflexivity|]. split; assumption.
    + rewrite bind_Raise. split; eauto.
  - intros images texts Hconv Htexts.
    rewrite Hconv, bind_Ok, images_loop_for_each, Htexts, !bind_Ok. reflexivity.
Qed.

(** X11: whichever helper returns a text, the text has no white space at its
    start and none at its end. *)
Theorem helpers_return_trimmed_text (sv : services) (t : pystr) :
  extract_text_with_pdfplumber sv = Ok t \/
  extract_text_with_pdf_ocr sv = Ok t \/
  extract_text_from_image sv = Ok t ->
  (forall c, head t = Some c -> isspace_char c = false) /\
  (forall c, last t = Some c -> isspace_char c = false).
Proof.
  assert (Hstrip : forall s, strip s = t ->
    (forall c, head t = Some c -> isspace_char c = false) /\
    (forall c, last t = Some c -> isspace_char c = false)).
  { intros s <-. destruct (strip_spec s) as (_ & _ & _ & _ & _ & Hhead & Hlast).
    split; assumption. }
  unfold extract_text_with_pdfplumber, extract_text_with_pdf_ocr, extract_text_from_image.
  intros [H | [H | H]].
  - destruct (pdfplumber_open sv) as [pages|]; [|discriminate H]. rewrite bind_Ok in H.
    destruct (pages_loop pages []) as [parts|]; [|discriminate H]. rewrite bind_Ok in H.
    injection H as H. eapply Hstrip, H.
  - destruct (convert_from_path sv) as [images|]; [|discriminate H]. rewrite bind_Ok in H.
    destruct (images_loop images []) as [parts|]; [|discriminate H]. rewrite bind_Ok in H.
    injection H as H. eapply Hstrip, H.
  - destruct (Image_open sv) as [img|]; [|discriminate H]. rewrite bind_Ok in H.
    destruct (image_to_string img) as [text|]; [|discriminate H]. rewrite bind_Ok in H.
    injection H as H. eapply Hstrip, H.
Qed.

(** X12: on an image the helper returns the empty text exactly when the OCR
    engine returns nothing but white space. *)
Theorem extract_text_from_image_empty_iff (sv : services) (img : image) (raw : pystr) :
  Image_open sv = Ok img ->
  image_to_string img = Ok raw ->
  (extract_text_from_image sv = Ok [] <-> forallb isspace_char raw = true).
Proof.
  intros Himg Hraw. unfold extract_text_from_image.
  rewrite Himg, bind_Ok, Hraw, bind_Ok, <- strip_empty_iff.
  split; [intros [= H]; exact H | intros ->; reflexivity].
Qed.

Lemma extract_text_with_pdfplumber_joins_witness :
  pdfplumber_open four_pages = Ok four_pages_list /\
  Forall2 page_yields four_pages_list
    [Some (str "  IMEI"); None; Some (str "490154203237518 "); Some []] /\
  extract_text_with_pdfplumber four_pages =
    Ok (str "IMEI" ++ newline ++ str "490154203237518").
Proof.
  assert (H1 : pdfplumber_open four_pages = Ok four_pages_list) by reflexivity.
  assert (H2 : Forall2 page_yields four_pages_list
                 [Some (str "  IMEI"); None; Some (str "490154203237518 "); Some []]).
  { unfold four_pages_list.
    constructor; [left; reflexivity|].
    constructor; [left; reflexivity|].
    constructor; [right; exists (OtherException "TypeError"); repeat split|].
    constructor; [left; reflexivity | constructor]. }
  split; [exact H1|]. split; [exact H2|].
  exact (extract_text_with_pdfplumber_joins four_pages _ _ H1 H2).
Defined.

Lemma helpers_return_trimmed_text_witness :
  (extract_text_with_pdfplumber scanned_pdf = Ok (str "some text with 490154203237518") \/
   extract_text_with_pdf_ocr scanned_pdf = Ok (str "some text with 490154203237518") \/
   extract_text_from_image scanned_pdf = Ok (str "some text with 490154203237518")) /\
  (forall c, head (str "some text with 490154203237518") = Some c ->
             isspace_char c = false) /\
  (forall c, last (str "some text with 490154203237518") = Some c ->
             isspace_char c = false).
Proof.
  assert (H : extract_text_with_pdfplumber scanned_pdf
                = Ok (str "some text with 490154203237518") \/
              extract_text_with_pdf_ocr scanned_pdf
                = Ok (str "some text with 490154203237518") \/
              extract_text_from_image scanned_pdf
                = Ok (str "some text with 490154203237518"))
    by (right; left; vm_compute; reflexivity).
  split; [exact H | exact (helpers_return_trimmed_text scanned_pdf _ H)].
Defined.

Lemma extract_text_from_image_empty_iff_witness :
  Image_open blank_image = Ok {| image_to_string := Ok [32%N; 10%N; 12%N] |} /\
  (extract_text_from_image blank_image = Ok [] <->
   forallb isspace_char [32%N; 10%N; 12%N] = true).
Proof.
  assert (H1 : Image_open blank_image = Ok {| image_to_string := Ok [32%N; 10%N; 12%N] |})
    by reflexivity.
  assert (H2 : image_to_string {| image_to_string := Ok [32%N; 10%N; 12%N] |}
               = Ok [32%N; 10%N; 12%N]) by reflexivity.
  split; [exact H1 | exact (extract_text_from_image_empty_iff blank_image _ _ H1 H2)].
Defined.

(** ** The request handler: every outcome *)

Section HandlerOutcomes.

Variable lower : pystr -> pystr.

Lemma extract_imeis_returns (text : pystr) :
  exists l, extract_imeis_from_text text = Ok l.
Proof. destruct (extract_imeis_spec text) as (l & H & _). eauto. Qed.

(** All the ways through the PDF branch: the outcome of each helper and, for
    an exception, whether it is of the class [Exception]. *)
Ltac pdf_branch_simpl :=
  repeat first
    [ rewrite bind_Ok
    | rewrite bind_Raise
    | progress cbn [except_Exception fst snd truthy negb orb]
    | match goal with
      | H : is_Exception _ = _ |- _ => rewrite H
      | H : negb (truthy _) || _ = _ |- _ => rewrite H
      end ].

Ltac pdf_branch_ways sv :=
  unfold pdf_branch;
  let t := fresh "t" in
  let e1 := fresh "e1" in
  let e2 := fresh "e2" in
  let He1 := fresh "He1" in
  let He2 := fresh "He2" in
  let c := fresh "c" in
  let ocr := fresh "ocr" in
  let Hshort := fresh "Hshort" in
  destruct (extract_text_with_pdfplumber sv) as [t | e1];
    [destruct (negb (truthy t) || (length t <? 10)) eqn:Hshort
    |destruct (is_Exception e1) eqn:He1];
    (destruct (extract_text_with_pdf_ocr sv) as [[|c ocr] | e2];
       [ | | destruct (is_Exception e2) eqn:He2]);
    pdf_branch_simpl.

Lemma pdf_branch_label (sv : services) (label : string) (text : pystr) :
  pdf_branch sv = Ok (label, text) ->
  label = "pdfplumber"%string \/ label = "pdf_ocr"%string \/ label = "unknown_pdf"%string.
Proof.
  pdf_branch_ways sv; try discriminate;
    cbn [String.eqb Ascii.eqb Bool.eqb andb]; intros [= <- _]; auto.
Qed.

(** A PDF branch that raises passes on an exception outside [Exception] that
    one of its helpers raised. *)
Lemma pdf_branch_raise (sv : services) (e : exn) :
  pdf_branch sv = Raise e ->
  is_Exception e = false /\
  (extract_text_with_pdfplumber sv = Raise e \/ extract_text_with_pdf_ocr sv = Raise e).
Proof.
  pdf_branch_ways sv; try discriminate; intros [= <-]; split; auto.
Qed.

Lemma image_branch_raise (sv : services) (e : exn) :
  image_branch sv = Raise e ->
  (e = HTTPException 400 "Failed to process image file for OCR" /\
   exists e', extract_text_from_image sv = Raise e' /\ is_Exception e' = true) \/
  (is_Exception e = false /\ extract_text_from_image sv = Raise e).
Proof.
  unfold image_branch. destruct (extract_text_from_image sv) as [t | e'].
  - rewrite bind_Ok. discriminate.
  - rewrite bind_Raise. cbn [except_Exception]. destruct (is_Exception e') eqn:He'.
    + intros [= <-]. left. split; [reflexivity | eauto].
    + intros [= <-]. right. split; [exact He' | reflexivity].
Qed.

(** What a response tells about the run that produced it. *)
Lemma extract_imei_Ok_inv (sv : services) (file : UploadFile.t) (r : ExtractResponse) :
  extract_imei lower sv file = Ok r ->
  exists saved text,
    save_upload_to_temp sv = Ok saved /\
    select_and_extract lower sv file = Ok (method_used r, text) /\
    extract_imeis_from_text text = Ok (imeis r) /\
    num_chars_extracted r = length text /\
    num_imeis_found r = length (imeis r).
Proof.
  unfold extract_imei, extract_imei_body.
  destruct (save_upload_to_temp sv) as [saved | e].
  - rewrite bind_Ok. destruct (select_and_extract lower sv file) as [[label text] | e].
    + rewrite bind_Ok. cbn [fst snd].
      destruct (extract_imeis_from_text text) as [found | e] eqn:Hfound.
      * rewrite bind_Ok. unfold JSONResponse.
        destruct (_ && _); [|discriminate].
        intros [= <-]. exists saved, text. repeat split. exact Hfound.
      * rewrite bind_Raise. destruct e; discriminate.
    + rewrite bind_Raise. destruct e; discriminate.
  - rewrite bind_Raise. destruct e; discriminate.
Qed.

(** X13: a PDF is answered whenever the upload is stored, the two helpers
    raise nothing outside [Exception] and the file name of the response can be
    encoded: whatever else the PDF parser, the rasterizer and the OCR engine
    do, the handler returns a response, labelled ["pdfplumber"], ["pdf_ocr"]
    or ["unknown_pdf"]. *)
Theorem pdf_request_always_answered (sv : services) (file : UploadFile.t)
  (saved : pystr * N) :
  is_pdf lower (or_empty (UploadFile.filename file)) (UploadFile.content_type file) = true ->
  save_upload_to_temp sv = Ok saved ->
  (forall e, extract_text_with_pdfplumber sv = Raise e -> is_Exception e = true) ->
  (forall e, extract_text_with_pdf_ocr sv = Raise e -> is_Exception e = true) ->
  utf8_encodable (filename_or (UploadFile.filename file) (Path_name sv (fst saved)))
    = true ->
  exists r,
    extract_imei lower sv file = Ok r /\
    (method_used r = "pdfplumber"%string \/ method_used r = "pdf_ocr"%string \/
     method_used r = "unknown_pdf"%string).
Proof.
  intros Hpdf Hsave Hlayer Hocr Hname.
  pose proof (pdf_branch_cases sv Hlayer Hocr) as Hbranch.
  destruct (pdf_branch sv) as [[label text] | e] eqn:Hres; [|discriminate Hbranch].
  destruct (extract_imeis_returns text) as [found Hfound].
  destruct (extract_imei_ok lower sv file saved label text found Hsave Hname)
    as [name Hr].
  - rewrite (is_pdf_select lower sv file Hpdf). exact Hres.
  - exact Hfound.
  - eexists. split; [exact Hr|]. cbn [method_used].
    exact (pdf_branch_label sv label text Hres).
Qed.

(** X14: once the upload is stored, the handler raises in three ways only:
    the status 400, for a document that is not a PDF whose OCR raised an
    exception of the class [Exception]; the status 500, when the file name of
    the response cannot be encoded; or an exception outside [Exception] that
    one of the three helpers raised, passed on as it is. *)
Theorem extract_imei_raises_only (sv : services) (file : UploadFile.t)
  (saved : pystr * N) (e : exn) :
  save_upload_to_temp sv = Ok saved ->
  extract_imei lower sv file = Raise e ->
  (e = HTTPException 400 "Failed to process image file for OCR" /\
   is_pdf lower (or_empty (UploadFile.filename file)) (UploadFile.content_type file)
     = false /\
   exists e', extract_text_from_image sv = Raise e' /\ is_Exception e' = true) \/
  (e = HTTPException 500 "Internal server error during IMEI extraction" /\
   utf8_encodable (filename_or (UploadFile.filename file) (Path_name sv (fst saved)))
     = false) \/
  (is_Exception e = false /\
   (extract_text_with_pdfplumber sv = Raise e \/
    extract_text_with_pdf_ocr sv = Raise e \/
    extract_text_from_image sv = Raise e)).
Proof.
  intros Hsave. unfold extract_imei, extract_imei_body.
  rewrite Hsave, bind_Ok. cbn [fst].
  destruct (select_and_extract lower sv file) as [[label text] | e0] eqn:Hsel.
  - rewrite bind_Ok. cbn [fst snd].
    destruct (extract_imeis_returns text) as [found Hfound].
    rewrite Hfound, bind_Ok. unfold JSONResponse. cbn [filename imeis].
    rewrite (extract_imeis_encodable text found Hfound), andb_true_r.
    destruct (utf8_encodable _) eqn:Hname; [discriminate|].
    cbn. intros [= <-]. right. left. split; reflexivity.
  - rewrite bind_Raise. unfold select_and_extract in Hsel.
    destruct (is_pdf lower _ _) eqn:Hpdf.
    + apply pdf_branch_raise in Hsel as [He0 Hwho].
      destruct e0; try discriminate He0; cbn; intros [= <-];
        right; right; (split; [reflexivity|]); destruct Hwho as [H | H]; auto.
    + apply image_branch_raise in Hsel as [[-> Hocr] | [He0 Hwho]].
      * intros [= <-]. left. repeat split. exact Hocr.
      * destruct e0; try discriminate He0; cbn; intros [= <-];
          right; right; (split; [reflexivity|]); auto.
Qed.

(** X15: when the upload cannot be stored, an [HTTPException] and an
    exception outside [Exception] pass through unchanged, and any other
    exception becomes the [HTTPException] of status 500, for a PDF and for an
    image alike. *)
Theorem save_failure_is_internal_error (sv : services) (file : UploadFile.t) (e : exn) :
  save_upload_to_temp sv = Raise e ->
  extract_imei lower sv file =
    Raise match e with
          | HTTPException status_code detail => HTTPException status_code detail
          | _ =>
              if is_Exception e
              then HTTPException 500 "Internal server error during IMEI extraction"
              else e
          end.
Proof.
  intros Hsave. unfold extract_imei, extract_imei_body. rewrite Hsave, bind_Raise.
  destruct e; reflexivity.
Qed.

(** X16: every response is consistent.  The identifiers are distinct, each
    has fifteen decimal digits and passes the checksum, their number is the
    reported one and fifteen times that number is at most the reported number
    of characters; the label is ["image_ocr"] exactly for a document that is
    not a PDF. *)
Theorem response_invariants (sv : services) (file : UploadFile.t) (r : ExtractResponse) :
  extract_imei lower sv file = Ok r ->
  NoDup (imeis r) /\
  (forall x, x ∈ imeis r ->
     length x = 15 /\ forallb isdecimal_char x = true /\
     luhn_checksum_is_valid x = Ok true) /\
  num_imeis_found r = length (imeis r) /\
  15 * num_imeis_found r <= num_chars_extracted r /\
  (method_used r = "image_ocr"%string <->
   is_pdf lower (or_empty (UploadFile.filename file)) (UploadFile.content_type file)
     = false).
Proof.
  intros (saved & text & Hsave & Hsel & Hfound & Hchars & Hnum)%extract_imei_Ok_inv.
  destruct (extract_imeis_spec text) as (l & Hres & Hnd & Hmem & _).
  rewrite Hfound in Hres. injection Hres as <-.
  split; [exact Hnd|]. split.
  { intros x Hx. apply Hmem in Hx as [[p Hp] Hvalid].
    apply finditer_match_at in Hp as (pre & post & _ & _ & Hlen & Hall & _).
    repeat split; assumption. }
  split; [exact Hnum|]. split.
  { rewrite Hnum, Hchars.
    destruct text as [|c text]; [injection Hfound as <-; simpl; lia|].
    unfold extract_imeis_from_text, findall, finditer in Hfound.
    apply candidates_loop_length in Hfound. rewrite length_map in Hfound.
    cbn [length Nat.add] in Hfound. pose proof (scan_length (c :: text) None 0 0). lia. }
  unfold select_and_extract in Hsel.
  destruct (is_pdf lower (or_empty (UploadFile.filename file))
              (UploadFile.content_type file)).
  - pose proof (pdf_branch_label sv _ _ Hsel) as Hlabel.
    split; [|discriminate]. intros Himage. rewrite Himage in Hlabel.
    destruct Hlabel as [H | [H | H]]; discriminate H.
  - unfold image_branch in Hsel.
    destruct (extract_text_from_image sv) as [t | e'].
    + rewrite bind_Ok in Hsel. cbn [except_Exception] in Hsel.
      injection Hsel as <- _. split; reflexivity.
    + rewrite bind_Raise in Hsel. cbn [except_Exception] in Hsel.
      destruct (is_Exception e'); discriminate Hsel.
Qed.

(** X17: a text layer of ten characters or more is final: the label is
    ["pdfplumber"] and the text is the one of the text layer, whatever the
    rasterizer and the OCR engine would do. *)
Theorem long_text_layer_is_final (sv : services) (file : UploadFile.t) (t : pystr) :
  is_pdf lower (or_empty (UploadFile.filename file)) (UploadFile.content_type file) = true ->
  extract_text_with_pdfplumber sv = Ok t ->
  10 <= length t ->
  select_and_extract lower sv file = Ok ("pdfplumber"%string, t).
Proof.
  intros Hpdf Hlayer Hlen. rewrite (is_pdf_select lower sv file Hpdf).
  unfold pdf_branch. rewrite Hlayer, bind_Ok. cbn [except_Exception].
  rewrite bind_Ok. cbn [fst snd].
  assert (Hlong : (length t <? 10) = false) by (apply Nat.ltb_ge; exact Hlen).
  assert (Htruthy : truthy t = true) by (destruct t; [simpl in Hlen; lia | reflexivity]).
  rewrite Hlong, Htruthy. reflexivity.
Qed.

(** X18: a text layer that failed, with an exception of the class
    [Exception], or has fewer than ten characters gives way to a non-empty OCR
    text: the label is ["pdf_ocr"] and the text is the OCR text alone; what
    the text layer held is dropped. *)
Theorem short_text_layer_replaced_by_ocr (sv : services) (file : UploadFile.t)
  (ocr_text : pystr) :
  is_pdf lower (or_empty (UploadFile.filename file)) (UploadFile.content_type file) = true ->
  (forall t, extract_text_with_pdfplumber sv = Ok t -> length t < 10) ->
  (forall e, extract_text_with_pdfplumber sv = Raise e -> is_Exception e = true) ->
  extract_text_with_pdf_ocr sv = Ok ocr_text ->
  ocr_text <> [] ->
  select_and_extract lower sv file = Ok ("pdf_ocr"%string, ocr_text).
Proof.
  intros Hpdf Hshort Hexc Hocr Hne. rewrite (is_pdf_select lower sv file Hpdf).
  rewrite (pdf_branch_cases sv Hexc); [|intros e He; rewrite Hocr in He; discriminate He].
  rewrite Hocr. destruct ocr_text as [|c ocr_text]; [contradiction|].
  destruct (extract_text_with_pdfplumber sv) as [t | e].
  - cbn [fst snd].
    assert (Hlt : (length t <? 10) = true) by (apply Nat.ltb_lt, Hshort; reflexivity).
    rewrite Hlt, orb_true_r. reflexivity.
  - reflexivity.
Qed.

(** X19: when both the text layer and the OCR fallback of a PDF raise
    exceptions of the class [Exception], the handler still answers, when the
    file name of the response can be encoded: label ["unknown_pdf"], no
    character, no identifier. *)
Theorem unknown_method_scenario (sv : services) (file : UploadFile.t)
  (saved : pystr * N) (e1 e2 : exn) :
  is_pdf lower (or_empty (UploadFile.filename file)) (UploadFile.content_type file) = true ->
  save_upload_to_temp sv = Ok saved ->
  utf8_encodable (filename_or (UploadFile.filename file) (Path_name sv (fst saved)))
    = true ->
  extract_text_with_pdfplumber sv = Raise e1 -> is_Exception e1 = true ->
  extract_text_with_pdf_ocr sv = Raise e2 -> is_Exception e2 = true ->
  exists name,
    extract_imei lower sv file =
      Ok {| filename := name;
            method_used := "unknown_pdf";
            imeis := [];
            num_chars_extracted := 0;
            num_imeis_found := 0 |}.
Proof.
  intros Hpdf Hsave Hname Hlayer He1 Hocr He2.
  apply (extract_imei_ok lower sv file saved "unknown_pdf" [] [] Hsave Hname);
    [|reflexivity].
  rewrite (is_pdf_select lower sv file Hpdf). unfold pdf_branch.
  rewrite Hlayer, bind_Raise. cbn [except_Exception]. rewrite He1, bind_Ok.
  cbn [fst snd truthy negb orb]. rewrite Hocr, bind_Raise. cbn [except_Exception].
  rewrite He2, bind_Ok. reflexivity.
Qed.

End HandlerOutcomes.

Lemma pdf_request_always_answered_witness :
  is_pdf lower_ascii (or_empty (UploadFile.filename scan_pdf))
    (UploadFile.content_type scan_pdf) = true /\
  save_upload_to_temp no_services = Ok (str "/tmp/tmpk3x9", 2048%N) /\
  exists r,
    extract_imei lower_ascii no_services scan_pdf = Ok r /\
    (method_used r = "pdfplumber"%string \/ method_used r = "pdf_ocr"%string \/
     method_used r = "unknown_pdf"%string).
Proof.
  assert (H1 : is_pdf lower_ascii (or_empty (UploadFile.filename scan_pdf))
                 (UploadFile.content_type scan_pdf) = true) by (vm_compute; reflexivity).
  assert (H2 : save_upload_to_temp no_services = Ok (str "/tmp/tmpk3x9", 2048%N))
    by reflexivity.
  assert (H3 : forall e, extract_text_with_pdfplumber no_services = Raise e ->
                         is_Exception e = true).
  { intros e He. vm_compute in He. injection He as <-. reflexivity. }
  assert (H4 : forall e, extract_text_with_pdf_ocr no_services = Raise e ->
                         is_Exception e = true).
  { intros e He. vm_compute in He. injection He as <-. reflexivity. }
  assert (H5 : utf8_encodable (filename_or (UploadFile.filename scan_pdf)
                 (Path_name no_services (fst (str "/tmp/tmpk3x9", 2048%N)))) = true)
    by (vm_compute; reflexivity).
  split; [exact H1|]. split; [exact H2|].
  exact (pdf_request_always_answered lower_ascii no_services scan_pdf _ H1 H2 H3 H4 H5).
Defined.

Lemma extract_imei_raises_only_witness :
  save_upload_to_temp no_services = Ok (str "/tmp/tmpk3x9", 2048%N) /\
  extract_imei lower_ascii no_services photo_png =
    Raise (HTTPException 400 "Failed to process image file for OCR") /\
  is_pdf lower_ascii (or_empty (UploadFile.filename photo_png))
    (UploadFile.content_type photo_png) = false.
Proof.
  assert (H1 : save_upload_to_temp no_services = Ok (str "/tmp/tmpk3x9", 2048%N))
    by reflexivity.
  assert (H2 : extract_imei lower_ascii no_services photo_png =
               Raise (HTTPException 400 "Failed to process image file for OCR"))
    by reflexivity.
  split; [exact H1|]. split; [exact H2|].
  destruct (extract_imei_raises_only lower_ascii no_services photo_png _ _ H1 H2)
    as [(_ & H & _) | [(H & _) | (H & _)]]; [exact H | discriminate H | discriminate H].
Defined.

Lemma save_failure_is_internal_error_witness :
  save_upload_to_temp disk_full = Raise (OtherException "OSError") /\
  extract_imei lower_ascii disk_full scan_pdf =
    Raise (HTTPException 500 "Internal server error during IMEI extraction").
Proof.
  assert (H : save_upload_to_temp disk_full = Raise (OtherException "OSError"))
    by reflexivity.
  split; [exact H | exact (save_failure_is_internal_error lower_ascii disk_full scan_pdf _ H)].
Defined.

Lemma response_invariants_witness :
  extract_imei lower_ascii scanned_pdf scan_pdf =
    Ok {| filename := str "Scan.PDF";
          method_used := "pdf_ocr";
          imeis := [str "490154203237518"];
          num_chars_extracted := 30;
          num_imeis_found := 1 |} /\
  15 * 1 <= 30.
Proof.
  assert (H : extract_imei lower_ascii scanned_pdf scan_pdf =
    Ok {| filename := str "Scan.PDF";
          method_used := "pdf_ocr";
          imeis := [str "490154203237518"];
          num_chars_extracted := 30;
          num_imeis_found := 1 |}) by (vm_compute; reflexivity).
  split; [exact H|].
  destruct (response_invariants lower_ascii scanned_pdf scan_pdf _ H) as (_ & _ & _ & Hb & _).
  exact Hb.
Defined.

Lemma long_text_layer_is_final_witness :
  is_pdf lower_ascii (or_empty (UploadFile.filename scan_pdf))
    (UploadFile.content_type scan_pdf) = true /\
  extract_text_with_pdfplumber text_pdf = Ok (str "IMEI 490154203237518") /\
  10 <= length (str "IMEI 490154203237518") /\
  select_and_extract lower_ascii text_pdf scan_pdf =
    Ok ("pdfplumber"%string, str "IMEI 490154203237518").
Proof.
  assert (H1 : is_pdf lower_ascii (or_empty (UploadFile.filename scan_pdf))
                 (UploadFile.content_type scan_pdf) = true) by (vm_compute; reflexivity).
  assert (H2 : extract_text_with_pdfplumber text_pdf = Ok (str "IMEI 490154203237518"))
    by (vm_compute; reflexivity).
  assert (H3 : 10 <= length (str "IMEI 490154203237518")) by (vm_compute; lia).
  split; [exact H1|]. split; [exact H2|]. split; [exact H3|].
  exact (long_text_layer_is_final lower_ascii text_pdf scan_pdf _ H1 H2 H3).
Defined.

Lemma short_text_layer_replaced_by_ocr_witness :
  is_pdf lower_ascii (or_empty (UploadFile.filename scan_pdf))
    (UploadFile.content_type scan_pdf) = true /\
  (forall t, extract_text_with_pdfplumber scanned_pdf = Ok t -> length t < 10) /\
  (forall e, extract_text_with_pdfplumber scanned_pdf = Raise e -> is_Exception e = true) /\
  extract_text_with_pdf_ocr scanned_pdf = Ok (str "some text with 490154203237518") /\
  str "some text with 490154203237518" <> [] /\
  select_and_extract lower_ascii scanned_pdf scan_pdf =
    Ok ("pdf_ocr"%string, str "some text with 490154203237518").
Proof.
  assert (H1 : is_pdf lower_ascii (or_empty (UploadFile.filename scan_pdf))
                 (UploadFile.content_type scan_pdf) = true) by (vm_compute; reflexivity).
  assert (H2 : forall t, extract_text_with_pdfplumber scanned_pdf = Ok t -> length t < 10).
  { intros t Ht. vm_compute in Ht. injection Ht as <-. simpl. lia. }
  assert (He : forall e, extract_text_with_pdfplumber scanned_pdf = Raise e ->
                         is_Exception e = true).
  { intros e H. vm_compute in H. discriminate H. }
  assert (H3 : extract_text_with_pdf_ocr scanned_pdf
               = Ok (str "some text with 490154203237518")) by (vm_compute; reflexivity).
  assert (H4 : str "some text with 490154203237518" <> []) by discriminate.
  split; [exact H1|]. split; [exact H2|]. split; [exact He|]. split; [exact H3|].
  split; [exact H4|].
  exact (short_text_layer_replaced_by_ocr lower_ascii scanned_pdf scan_pdf _
           H1 H2 He H3 H4).
Defined.

Lemma unknown_method_scenario_witness :
  is_pdf lower_ascii (or_empty (UploadFile.filename scan_pdf))
    (UploadFile.content_type scan_pdf) = true /\
  save_upload_to_temp no_services = Ok (str "/tmp/tmpk3x9", 2048%N) /\
  extract_text_with_pdfplumber no_services = Raise (OtherException "PDFSyntaxError") /\
  extract_text_with_pdf_ocr no_services = Raise (OtherException "PDFPageCountError") /\
  exists name,
    extract_imei lower_ascii no_services scan_pdf =
      Ok {| filename := name;
            method_used := "unknown_pdf";
            imeis := [];
            num_chars_extracted := 0;
            num_imeis_found := 0 |}.
Proof.
  assert (H1 : is_pdf lower_ascii (or_empty (UploadFile.filename scan_pdf))
                 (UploadFile.content_type scan_pdf) = true) by (vm_compute; reflexivity).
  assert (H2 : save_upload_to_temp no_services = Ok (str "/tmp/tmpk3x9", 2048%N))
    by reflexivity.
  assert (Hn : utf8_encodable (filename_or (UploadFile.filename scan_pdf)
                 (Path_name no_services (fst (str "/tmp/tmpk3x9", 2048%N)))) = true)
    by (vm_compute; reflexivity).
  assert (H3 : extract_text_with_pdfplumber no_services
               = Raise (OtherException "PDFSyntaxError")) by reflexivity.
  assert (H4 : extract_text_with_pdf_ocr no_services
               = Raise (OtherException "PDFPageCountError")) by reflexivity.
  split; [exact H1|]. split; [exact H2|]. split; [exact H3|]. split; [exact H4|].
  exact (unknown_method_scenario lower_ascii no_services scan_pdf _ _ _
           H1 H2 Hn H3 eq_refl H4 eq_refl).
Defined.

(** ** Logging and the stored upload *)

(** X20: [setup_logging] is safe to run again.  Whatever the logger held and
    whether or not the log file could be opened, a second call returns
    without raising and leaves the logger as the first call left it: no
    handler is added twice, and a file handler that failed is not tried
    again. *)
Theorem setup_logging_idempotent (first second : result unit) (logger : Logger) :
  setup_logging second (fst (setup_logging first logger)) =
    (fst (setup_logging first logger), Ok tt) /\
  0 < length (handlers (fst (setup_logging first logger))).
Proof.
  unfold setup_logging.
  destruct logger as [level [|h hs]]; destruct first as [[]|e]; cbn; split;
    try reflexivity; simpl; lia.
Qed.

Lemma copy_loop_spec (turns : list (result bytes * result unit)) (total_bytes : nat)
  (out_file : bytes) (n : nat) (written : bytes) :
  copy_loop turns total_bytes out_file = Ok (n, written) ->
  exists chunks,
    written = out_file ++ concat chunks /\
    n = total_bytes + length (concat chunks) /\
    Forall (fun chunk => chunk <> []) chunks /\
    map (fun chunk => (Ok chunk, Ok tt)) chunks = take (length chunks) turns /\
    (length chunks = length turns \/
     exists write, turns !! length chunks = Some (Ok [], write)).
Proof.
  revert total_bytes out_file.
  induction turns as [|[read write] turns IH]; intros total_bytes out_file.
  - cbn [copy_loop]. intros [= <- <-]. exists []. cbn. rewrite app_nil_r.
    repeat split; [lia | constructor | left; reflexivity].
  - cbn [copy_loop]. destruct read as [chunk | e]; [|rewrite bind_Raise; discriminate].
    rewrite bind_Ok. destruct chunk as [|b chunk].
    + intros [= <- <-]. exists []. cbn. rewrite app_nil_r.
      repeat split; [lia | constructor | right; exists write; reflexivity].
    + destruct write as [[]|e]; [|rewrite bind_Raise; discriminate].
      rewrite bind_Ok. intros (chunks & -> & -> & Hne & Hturns & Hend)%IH.
      exists ((b :: chunk) :: chunks). split; [|split; [|split; [|split]]].
      * cbn [concat]. rewrite <- app_assoc. reflexivity.
      * cbn [concat]. rewrite !length_app. lia.
      * constructor; [discriminate | exact Hne].
      * cbn [length take map]. rewrite Hturns. reflexivity.
      * cbn [length]. destruct Hend as [Hend | [w Hw]]; [left; lia | right].
        exists w. exact Hw.
Qed.

(** X21: when the copy loop of [save_upload_to_temp] returns, it has run
    through the turns up to the first empty chunk, or through all of them:
    each of those turns read a chunk that is not empty and wrote it, the
    temporary file holds these chunks in order and nothing else, and
    [total_bytes] is the size of the file. *)
Theorem copy_loop_counts_written_bytes (turns : list (result bytes * result unit))
  (n : nat) (written : bytes) :
  copy_loop turns 0 [] = Ok (n, written) ->
  n = length written /\
  exists chunks,
    written = concat chunks /\
    Forall (fun chunk => chunk <> []) chunks /\
    map (fun chunk => (Ok chunk, Ok tt)) chunks = take (length chunks) turns /\
    (length chunks = length turns \/
     exists write, turns !! length chunks = Some (Ok [], write)).
Proof.
  intros (chunks & -> & -> & Hne & Hturns & Hend)%copy_loop_spec.
  split; [reflexivity|]. exists chunks. repeat split; assumption.
Qed.

Lemma copy_loop_counts_written_bytes_witness :
  copy_loop [(Ok [Byte.x25; Byte.x50], Ok tt); (Ok [Byte.x44], Ok tt); (Ok [], Ok tt);
             (Ok [Byte.x46], Ok tt)] 0 []
    = Ok (3, [Byte.x25; Byte.x50; Byte.x44]) /\
  3 = length [Byte.x25; Byte.x50; Byte.x44].
Proof.
  assert (H : copy_loop
                [(Ok [Byte.x25; Byte.x50], Ok tt); (Ok [Byte.x44], Ok tt); (Ok [], Ok tt);
                 (Ok [Byte.x46], Ok tt)] 0 []
              = Ok (3, [Byte.x25; Byte.x50; Byte.x44])) by reflexivity.
  split; [exact H|].
  destruct (copy_loop_counts_written_bytes _ _ _ H) as [Hn _]. exact Hn.
Defined.

(** ** Leading zeros *)

Lemma luhn_weighted_sum_zeros (doubled : bool) (l : list Z) :
  (forall x, x ∈ l -> x = 0%Z) -> luhn_weighted_sum doubled l = 0%Z.
Proof.
  revert doubled. induction l as [|d l IH]; intros doubled Hz; [reflexivity|].
  cbn [luhn_weighted_sum]. rewrite IH.
  - rewrite (Hz d (list_elem_of_here _ _)). destruct doubled; reflexivity.
  - intros x Hx. apply Hz, list_elem_of_further, Hx.
Qed.

(** X22: zeros in front change nothing.  A string of decimal digits and the
    same string with any number of zeros put before it are accepted or
    rejected alike. *)
Theorem luhn_leading_zeros (n : nat) (s : pystr) :
  isdecimal s = true ->
  luhn_checksum_is_valid (replicate n 48%N ++ s) = luhn_checksum_is_valid s.
Proof.
  intros [Hne Hall]%isdecimal_forallb.
  rewrite (luhn_checksum_weighted s Hne Hall), luhn_checksum_weighted.
  - rewrite digit_values_app, digit_values_replicate_zero, rev_app_distr,
      luhn_weighted_sum_app, (luhn_weighted_sum_zeros _ (rev (replicate n 0%Z))).
    + rewrite Z.add_0_r. reflexivity.
    + intros x Hx%list_elem_of_In%in_rev%list_elem_of_In.
      apply elem_of_replicate in Hx as [-> _]. reflexivity.
  - intros E. apply app_eq_nil in E as [_ E]. contradiction.
  - rewrite forallb_app, forallb_replicate_zero. exact Hall.
Qed.

Lemma luhn_leading_zeros_witness :
  isdecimal (str "490154203237518") = true /\
  luhn_checksum_is_valid (replicate 3 48%N ++ str "490154203237518") =
    luhn_checksum_is_valid (str "490154203237518").
Proof.
  assert (H : isdecimal (str "490154203237518") = true) by (vm_compute; reflexivity).
  split; [exact H | exact (luhn_leading_zeros 3 _ H)].
Defined.
